(** * HR management API: leave-balance accounting and leave-request state machine

    A shallow embedding of [src/main.py].  The two module-level lists
    [employee_db] and [leave_db] form the store; every endpoint is a
    computation in a state-and-exception monad over that store.  Python
    integers are unbounded, hence [Z]; Python lists are [list]. *)

From Stdlib Require Import ZArith List String Ascii Bool Lia DecimalString.
Import ListNotations.
Open Scope string_scope.
Open Scope Z_scope.

(** ** Enums for controlled vocabularies *)

Inductive LeaveStatus : Type := PENDING | APPROVED | REJECTED.

Inductive LeaveType : Type := VACATION | SICK | PERSONAL.

(** The [.value] of a [LeaveType] member (the enum is a [str] enum). *)
Definition LeaveType_value (t : LeaveType) : string :=
  match t with
  | VACATION => "vacation"
  | SICK => "sick"
  | PERSONAL => "personal"
  end.

Definition LeaveStatus_eqb (a b : LeaveStatus) : bool :=
  match a, b with
  | PENDING, PENDING | APPROVED, APPROVED | REJECTED, REJECTED => true
  | _, _ => false
  end.

Definition LeaveType_eqb (a b : LeaveType) : bool :=
  match a, b with
  | VACATION, VACATION | SICK, SICK | PERSONAL, PERSONAL => true
  | _, _ => false
  end.

(** ** Calendar dates

    A [datetime.date] is represented by its proleptic Gregorian ordinal
    ([date.toordinal()], day 1 being 0001-01-01).  Every operation the
    program performs on dates is a function of the ordinal: comparison,
    [(end - start).days], [start + timedelta(days=i)] and [weekday()],
    which CPython computes as [(toordinal() + 6) % 7]. *)

Definition date : Type := Z.

Definition is_leap (year : Z) : bool :=
  (year mod 4 =? 0) && (negb (year mod 100 =? 0) || (year mod 400 =? 0)).

Definition days_before_year (year : Z) : Z :=
  let y := year - 1 in y * 365 + y / 4 - y / 100 + y / 400.

Definition DAYS_BEFORE_MONTH (month : Z) : Z :=
  nth (Z.to_nat month) [0; 0; 31; 59; 90; 120; 151; 181; 212; 243; 273; 304; 334] 0.

Definition days_before_month (year month : Z) : Z :=
  DAYS_BEFORE_MONTH month + (if (month >? 2) && is_leap year then 1 else 0).

(** [date(year, month, day)], as an ordinal. *)
Definition date_of_ymd (year month day : Z) : date :=
  days_before_year year + days_before_month year month + day.

(** [d.weekday()]: Monday is 0 and Sunday is 6. *)
Definition weekday (d : date) : Z := (d + 6) mod 7.

(** [range(n)] *)
Definition range (n : Z) : list Z := map Z.of_nat (seq 0 (Z.to_nat n)).

(** [sum(...)] over integers *)
Definition sum (l : list Z) : Z := fold_right Z.add 0 l.

(** ** Helper: business days *)

Definition calculate_business_days (start_date end_date : date) : Z :=
  if start_date >? end_date then 0
  else
    let days := (end_date - start_date) + 1 in
    let weekend_days :=
      sum (map (fun _ => 1)
               (filter (fun i => weekday (start_date + i) >=? 5) (range days))) in
    days - weekend_days.

(** The reading of the contract: the days of the inclusive range whose
    day of the week is one of Monday to Friday, counted one by one. *)

Inductive DayOfWeek : Type :=
  Monday | Tuesday | Wednesday | Thursday | Friday | Saturday | Sunday.

Definition day_of_week (d : date) : DayOfWeek :=
  nth (Z.to_nat (weekday d))
      [Monday; Tuesday; Wednesday; Thursday; Friday; Saturday; Sunday] Monday.

Definition is_monday_to_friday (d : date) : bool :=
  match day_of_week d with
  | Saturday | Sunday => false
  | _ => true
  end.

(** The dates [first], [first + 1], ... ([n] of them). *)
Fixpoint dates_from (first : date) (n : nat) : list date :=
  match n with
  | O => []
  | S k => first :: dates_from (first + 1) k
  end.

Definition inclusive_range (start_date end_date : date) : list date :=
  dates_from start_date (Z.to_nat (end_date - start_date + 1)).

Definition weekdays_in_range (start_date end_date : date) : Z :=
  Z.of_nat (List.length (filter is_monday_to_friday (inclusive_range start_date end_date))).

(** ** Pydantic models

    Each model class is a module holding its record [t]; field names are
    those of the class.  [eqb] is the models' [__eq__], which compares
    field by field. *)

(** [str(n)] for an integer, as an f-string renders it. *)
Definition str (n : Z) : string := NilZero.string_of_int (Z.to_int n).

Module LeaveBalance.
Record t : Type := mk { allocated : Z; used : Z }.
Definition remaining (self : t) : Z := allocated self - used self.
Definition eqb (a b : t) : bool :=
  (allocated a =? allocated b) && (used a =? used b).
End LeaveBalance.

Module EmployeeBalances.
Record t : Type := mk {
  vacation : LeaveBalance.t;
  sick : LeaveBalance.t;
  personal : LeaveBalance.t
}.
(** [EmployeeBalances()]: the three default factories. *)
Definition default : t :=
  mk (LeaveBalance.mk 15 0) (LeaveBalance.mk 10 0) (LeaveBalance.mk 5 0).
(** [getattr(self, leave_type.value)]: the attribute whose name is the
    value of the leave type. *)
Definition getattr (self : t) (leave_type : LeaveType) : LeaveBalance.t :=
  match leave_type with
  | VACATION => vacation self
  | SICK => sick self
  | PERSONAL => personal self
  end.
(** The same attribute after [balance.used += n] on the object it holds. *)
Definition add_used (leave_type : LeaveType) (n : Z) (self : t) : t :=
  let bump b := LeaveBalance.mk (LeaveBalance.allocated b) (LeaveBalance.used b + n) in
  match leave_type with
  | VACATION => mk (bump (vacation self)) (sick self) (personal self)
  | SICK => mk (vacation self) (bump (sick self)) (personal self)
  | PERSONAL => mk (vacation self) (sick self) (bump (personal self))
  end.
Definition eqb (a b : t) : bool :=
  LeaveBalance.eqb (vacation a) (vacation b)
  && LeaveBalance.eqb (sick a) (sick b)
  && LeaveBalance.eqb (personal a) (personal b).
End EmployeeBalances.

Module CreateEmployee.
Record t : Type := mk { name : string; position : string; department : string }.
End CreateEmployee.

Module Employee.
Record t : Type := mk {
  id : Z;
  name : string;
  position : string;
  department : string;
  leave_balances : EmployeeBalances.t
}.
Definition eqb (a b : t) : bool :=
  (id a =? id b)
  && String.eqb (name a) (name b)
  && String.eqb (position a) (position b)
  && String.eqb (department a) (department b)
  && EmployeeBalances.eqb (leave_balances a) (leave_balances b).
(** The object after the three profile assignments of [update_employee]. *)
Definition set_profile (d : CreateEmployee.t) (self : t) : t :=
  mk (id self) (CreateEmployee.name d) (CreateEmployee.position d)
     (CreateEmployee.department d) (leave_balances self).
(** The object after [balance.used += n] on one of its balances. *)
Definition add_used (leave_type : LeaveType) (n : Z) (self : t) : t :=
  mk (id self) (name self) (position self) (department self)
     (EmployeeBalances.add_used leave_type n (leave_balances self)).
End Employee.

Module CreateLeaveRequest.
Record t : Type := mk {
  leave_type : LeaveType;
  start_date : date;
  end_date : date;
  reason : string
}.
End CreateLeaveRequest.

Module LeaveRequest.
Record t : Type := mk {
  id : Z;
  employee_id : Z;
  leave_type : LeaveType;
  start_date : date;
  end_date : date;
  reason : string;
  status : LeaveStatus
}.
(** The object after [self.status = s]. *)
Definition set_status (s : LeaveStatus) (self : t) : t :=
  mk (id self) (employee_id self) (leave_type self) (start_date self)
     (end_date self) (reason self) s.
End LeaveRequest.

Module UpdateLeaveStatus.
Record t : Type := mk { status : LeaveStatus }.
End UpdateLeaveStatus.

(** ** In-memory databases *)

Record Store : Type := mkStore {
  employee_db : list Employee.t;
  leave_db : list LeaveRequest.t
}.

Definition initial_store : Store :=
  {| employee_db :=
       [ Employee.mk 1 "Alice Smith" "Software Engineer" "Technology"
           EmployeeBalances.default;
         Employee.mk 2 "Bob Johnson" "HR Manager" "Human Resources"
           (EmployeeBalances.mk (LeaveBalance.mk 20 5) (LeaveBalance.mk 10 1)
                                (LeaveBalance.mk 5 0)) ];
     leave_db :=
       [ LeaveRequest.mk 1 2 VACATION (date_of_ymd 2025 10 20)
           (date_of_ymd 2025 10 22) "Family vacation." APPROVED ] |}.

(** ** Exceptions and the endpoint monad

    An endpoint either returns a value or raises; in both cases the store
    is left as the statements executed so far have mutated it (a raise
    rolls nothing back). *)

Inductive Exception : Type :=
| HTTPException (status_code : Z) (detail : string)
| ValueError.

Inductive Outcome (A : Type) : Type :=
| Return (a : A)
| Raise (e : Exception).
Arguments Return {A} a.
Arguments Raise {A} e.

Definition M (A : Type) : Type := Store -> Outcome A * Store.

Definition ret {A} (a : A) : M A := fun s => (Return a, s).

Definition raise {A} (e : Exception) : M A := fun s => (Raise e, s).

Definition bind {A B} (c : M A) (k : A -> M B) : M B :=
  fun s => match c s with
           | (Return a, s') => k a s'
           | (Raise e, s') => (Raise e, s')
           end.

Notation "x <- c ;; k" := (bind c (fun x => k))
  (at level 61, c at next level, right associativity).
Notation "c ;;; k" := (bind c (fun _ => k))
  (at level 61, right associativity).

Definition gets {A} (f : Store -> A) : M A := fun s => (Return (f s), s).

Definition modify (f : Store -> Store) : M unit := fun s => (Return tt, f s).

Definition HTTP_404_NOT_FOUND : Z := 404.
Definition HTTP_400_BAD_REQUEST : Z := 400.

(** ** Objects inside the lists

    A loop such as [for employee in employee_db: if employee.id == ...]
    yields the first matching object of the list, and an assignment to a
    field of that object is seen through the list: [mutate_first] rewrites
    the object at the first matching position and leaves the others as
    they are. *)

Section ListObjects.
Context {A : Type}.

Fixpoint find_first (p : A -> bool) (l : list A) : option A :=
  match l with
  | [] => None
  | x :: rest => if p x then Some x else find_first p rest
  end.

Fixpoint mutate_first (p : A -> bool) (f : A -> A) (l : list A) : list A :=
  match l with
  | [] => []
  | x :: rest => if p x then f x :: rest else x :: mutate_first p f rest
  end.

(** [l.remove(x)]: drops the first item equal to [x]; [None] stands for
    the [ValueError] of a list that holds no such item. *)
Fixpoint list_remove (eqb : A -> A -> bool) (x : A) (l : list A) : option (list A) :=
  match l with
  | [] => None
  | y :: rest =>
      if eqb y x then Some rest
      else match list_remove eqb x rest with
           | Some rest' => Some (y :: rest')
           | None => None
           end
  end.

End ListObjects.

(** [max(ids) + 1 if ids else 1] *)
Definition next_id (ids : list Z) : Z :=
  match ids with
  | [] => 1
  | x :: rest => fold_left Z.max rest x + 1
  end.

Definition has_employee_id (employee_id : Z) (employee : Employee.t) : bool :=
  Employee.id employee =? employee_id.

Definition has_request_id (request_id : Z) (req : LeaveRequest.t) : bool :=
  LeaveRequest.id req =? request_id.

(** A field assignment on the employee object that [find_employee] returned. *)
Definition mutate_employee (employee_id : Z) (f : Employee.t -> Employee.t) : M unit :=
  modify (fun s =>
    mkStore (mutate_first (has_employee_id employee_id) f (employee_db s)) (leave_db s)).

(** A field assignment on the request object that the request loop found. *)
Definition mutate_request (request_id : Z) (f : LeaveRequest.t -> LeaveRequest.t) : M unit :=
  modify (fun s =>
    mkStore (employee_db s) (mutate_first (has_request_id request_id) f (leave_db s))).

(** ** Helper functions *)

Definition employee_not_found (employee_id : Z) : Exception :=
  HTTPException HTTP_404_NOT_FOUND ("Employee with ID " ++ str employee_id ++ " not found").

Definition find_employee (employee_id : Z) : M Employee.t :=
  db <- gets employee_db ;;
  match find_first (has_employee_id employee_id) db with
  | Some employee => ret employee
  | None => raise (employee_not_found employee_id)
  end.

(** ** Root endpoint *)

Definition read_root : M (list (string * string)) :=
  ret [("message", "Welcome to the HR API!")].

(** ** Employee endpoints *)

Definition get_all_employees : M (list Employee.t) := gets employee_db.

Definition get_employee_by_id (employee_id : Z) : M Employee.t :=
  find_employee employee_id.

Definition create_employee (employee_data : CreateEmployee.t) : M Employee.t :=
  db <- gets employee_db ;;
  let new_id := next_id (map Employee.id db) in
  let new_employee :=
    Employee.mk new_id (CreateEmployee.name employee_data)
      (CreateEmployee.position employee_data)
      (CreateEmployee.department employee_data) EmployeeBalances.default in
  modify (fun s => mkStore (employee_db s ++ [new_employee])%list (leave_db s)) ;;;
  ret new_employee.

Definition update_employee (employee_id : Z) (updated_data : CreateEmployee.t)
  : M Employee.t :=
  employee <- find_employee employee_id ;;
  mutate_employee employee_id (Employee.set_profile updated_data) ;;;
  ret (Employee.set_profile updated_data employee).

Definition delete_employee (employee_id : Z) : M unit :=
  employee_to_delete <- find_employee employee_id ;;
  db <- gets employee_db ;;
  match list_remove Employee.eqb employee_to_delete db with
  | Some db' => modify (fun s => mkStore db' (leave_db s))
  | None => raise ValueError
  end.

(** ** Quota and leave endpoints *)

Definition get_employee_leave_balance (employee_id : Z) : M EmployeeBalances.t :=
  employee <- find_employee employee_id ;;
  ret (Employee.leave_balances employee).

Definition invalid_range : Exception :=
  HTTPException HTTP_400_BAD_REQUEST "End date must be after start date.".

Definition insufficient_on_create (leave_type : LeaveType) (leave_duration remaining : Z)
  : Exception :=
  HTTPException HTTP_400_BAD_REQUEST
    ("Insufficient " ++ LeaveType_value leave_type ++ " leave balance. "
     ++ "Required: " ++ str leave_duration ++ ", Available: " ++ str remaining).

Definition create_leave_request (employee_id : Z) (request_data : CreateLeaveRequest.t)
  : M LeaveRequest.t :=
  employee <- find_employee employee_id ;;
  let leave_duration :=
    calculate_business_days (CreateLeaveRequest.start_date request_data)
                            (CreateLeaveRequest.end_date request_data) in
  if leave_duration <=? 0 then raise invalid_range
  else
    let balance :=
      EmployeeBalances.getattr (Employee.leave_balances employee)
                               (CreateLeaveRequest.leave_type request_data) in
    if LeaveBalance.remaining balance <? leave_duration then
      raise (insufficient_on_create (CreateLeaveRequest.leave_type request_data)
                                    leave_duration (LeaveBalance.remaining balance))
    else
      db <- gets leave_db ;;
      let new_id := next_id (map LeaveRequest.id db) in
      let new_request :=
        LeaveRequest.mk new_id employee_id
          (CreateLeaveRequest.leave_type request_data)
          (CreateLeaveRequest.start_date request_data)
          (CreateLeaveRequest.end_date request_data)
          (CreateLeaveRequest.reason request_data) PENDING in
      modify (fun s => mkStore (employee_db s) (leave_db s ++ [new_request])%list) ;;;
      ret new_request.

Definition get_all_leave_requests (status : option LeaveStatus) : M (list LeaveRequest.t) :=
  match status with
  | Some st =>
      db <- gets leave_db ;;
      ret (filter (fun req => LeaveStatus_eqb (LeaveRequest.status req) st) db)
  | None => gets leave_db
  end.

Definition get_employee_leave_requests (employee_id : Z) : M (list LeaveRequest.t) :=
  find_employee employee_id ;;;
  db <- gets leave_db ;;
  ret (filter (fun req => LeaveRequest.employee_id req =? employee_id) db).

Definition request_not_found (request_id : Z) : Exception :=
  HTTPException HTTP_404_NOT_FOUND
    ("Leave request with ID " ++ str request_id ++ " not found").

Definition insufficient_on_approve (leave_type : LeaveType) : Exception :=
  HTTPException HTTP_400_BAD_REQUEST
    ("Cannot approve. Employee has insufficient " ++ LeaveType_value leave_type
     ++ " balance.").

Definition update_leave_request_status (request_id : Z) (status_update : UpdateLeaveStatus.t)
  : M LeaveRequest.t :=
  db <- gets leave_db ;;
  match find_first (has_request_id request_id) db with
  | None => raise (request_not_found request_id)
  | Some request_to_update =>
      employee <- find_employee (LeaveRequest.employee_id request_to_update) ;;
      let leave_duration :=
        calculate_business_days (LeaveRequest.start_date request_to_update)
                                (LeaveRequest.end_date request_to_update) in
      let leave_type := LeaveRequest.leave_type request_to_update in
      let balance :=
        EmployeeBalances.getattr (Employee.leave_balances employee) leave_type in
      let new_status := UpdateLeaveStatus.status status_update in
      let old_status := LeaveRequest.status request_to_update in
      let is_newly_approved :=
        LeaveStatus_eqb new_status APPROVED && negb (LeaveStatus_eqb old_status APPROVED) in
      let was_previously_approved :=
        LeaveStatus_eqb old_status APPROVED && negb (LeaveStatus_eqb new_status APPROVED) in
      (if is_newly_approved then
         if LeaveBalance.remaining balance <? leave_duration then
           raise (insufficient_on_approve leave_type)
         else
           mutate_employee (Employee.id employee) (Employee.add_used leave_type leave_duration)
       else if was_previously_approved then
         mutate_employee (Employee.id employee) (Employee.add_used leave_type (- leave_duration))
       else ret tt) ;;;
      mutate_request request_id (LeaveRequest.set_status new_status) ;;;
      ret (LeaveRequest.set_status new_status request_to_update)
  end.

(** ** Sequences of API calls

    A call carries the arguments as the endpoint function receives them,
    that is, after the framework has parsed and validated the payload. *)

Inductive Call : Type :=
| Call_read_root
| Call_get_all_employees
| Call_get_employee_by_id (employee_id : Z)
| Call_create_employee (employee_data : CreateEmployee.t)
| Call_update_employee (employee_id : Z) (updated_data : CreateEmployee.t)
| Call_delete_employee (employee_id : Z)
| Call_get_employee_leave_balance (employee_id : Z)
| Call_create_leave_request (employee_id : Z) (request_data : CreateLeaveRequest.t)
| Call_get_all_leave_requests (status : option LeaveStatus)
| Call_get_employee_leave_requests (employee_id : Z)
| Call_update_leave_request_status (request_id : Z) (status_update : UpdateLeaveStatus.t).

(** The store after one call, whether it returned or raised. *)
Definition exec (c : Call) (s : Store) : Store :=
  match c with
  | Call_read_root => snd (read_root s)
  | Call_get_all_employees => snd (get_all_employees s)
  | Call_get_employee_by_id i => snd (get_employee_by_id i s)
  | Call_create_employee d => snd (create_employee d s)
  | Call_update_employee i d => snd (update_employee i d s)
  | Call_delete_employee i => snd (delete_employee i s)
  | Call_get_employee_leave_balance i => snd (get_employee_leave_balance i s)
  | Call_create_leave_request i d => snd (create_leave_request i d s)
  | Call_get_all_leave_requests st => snd (get_all_leave_requests st s)
  | Call_get_employee_leave_requests i => snd (get_employee_leave_requests i s)
  | Call_update_leave_request_status i u => snd (update_leave_request_status i u s)
  end.

Definition run (calls : list Call) (s : Store) : Store :=
  fold_left (fun s c => exec c s) calls s.

(** The ids handed out by the [create_employee] calls of a sequence, in order. *)
Fixpoint assigned_ids (calls : list Call) (s : Store) : list Z :=
  match calls with
  | [] => []
  | c :: rest =>
      match c with
      | Call_create_employee d =>
          match fst (create_employee d s) with
          | Return e => [Employee.id e]
          | Raise _ => []
          end
      | _ => []
      end ++ assigned_ids rest (exec c s)
  end%list.

(** ** Notions used in the statements *)

(** The balance of one leave type that an employee object holds. *)
Definition balance (employee : Employee.t) (leave_type : LeaveType) : LeaveBalance.t :=
  EmployeeBalances.getattr (Employee.leave_balances employee) leave_type.

(** The duration that both leave endpoints compute for a request. *)
Definition duration (req : LeaveRequest.t) : Z :=
  calculate_business_days (LeaveRequest.start_date req) (LeaveRequest.end_date req).

(** What one request counts for in the ledger of [(employee_id, leave_type)]:
    its duration when it is approved and charged to that ledger. *)
Definition charge (employee_id : Z) (leave_type : LeaveType) (req : LeaveRequest.t) : Z :=
  if (LeaveRequest.employee_id req =? employee_id)
     && LeaveType_eqb (LeaveRequest.leave_type req) leave_type
     && LeaveStatus_eqb (LeaveRequest.status req) APPROVED
  then duration req else 0.

Definition approved_days (employee_id : Z) (leave_type : LeaveType)
  (db : list LeaveRequest.t) : Z :=
  sum (map (charge employee_id leave_type) db).

(** Some approved request of [db] names [employee_id]. *)
Definition has_approved_leave (employee_id : Z) (db : list LeaveRequest.t) : bool :=
  existsb (fun req => (LeaveRequest.employee_id req =? employee_id)
                      && LeaveStatus_eqb (LeaveRequest.status req) APPROVED) db.

(** Every call of a sequence passes the check [ok] in the store it runs in. *)
Fixpoint every_call (ok : Call -> Store -> bool) (calls : list Call) (s : Store) : bool :=
  match calls with
  | [] => true
  | c :: rest => ok c s && every_call ok rest (exec c s)
  end.

(** The call is not a [create_employee] that hands out an id which an
    approved request names at that moment. *)
Definition assigns_unclaimed_id (c : Call) (s : Store) : bool :=
  match c with
  | Call_create_employee _ =>
      negb (has_approved_leave (next_id (map Employee.id (employee_db s))) (leave_db s))
  | _ => true
  end.

Definition assigns_unclaimed_ids : list Call -> Store -> bool :=
  every_call assigns_unclaimed_id.

(** [m] is the greatest element of [ids]. *)
Definition is_max (m : Z) (ids : list Z) : Prop :=
  In m ids /\ Forall (fun i => i <= m) ids.

(** The call is not a [delete_employee] on the greatest id of the employee
    list at that moment. *)
Definition spares_greatest (c : Call) (s : Store) : bool :=
  match c with
  | Call_delete_employee i =>
      negb (existsb (Z.eqb i) (map Employee.id (employee_db s))
            && forallb (fun j => j <=? i) (map Employee.id (employee_db s)))
  | _ => true
  end.

Definition spares_greatest_id : list Call -> Store -> bool :=
  every_call spares_greatest.

(** Every id of [l] is at most some id of [l']. *)
Definition dominated (l l' : list Z) : Prop :=
  forall j, In j l -> exists j', In j' l' /\ j <= j'.

(** Strictly increasing lists of ids. *)
Fixpoint increasing (l : list Z) : Prop :=
  match l with
  | [] => True
  | x :: rest => Forall (fun y => x < y) rest /\ increasing rest
  end.

(** [needle in hay], on strings. *)
Definition mentions (needle hay : string) : bool :=
  match String.index 0 needle hay with
  | Some _ => true
  | None => false
  end.

Definition is_digit (c : ascii) : bool :=
  let n := nat_of_ascii c in (48 <=? n)%nat && (n <=? 57)%nat.

Fixpoint has_digit (s : string) : bool :=
  match s with
  | EmptyString => false
  | String c rest => is_digit c || has_digit rest
  end.

(** ** The effect of one call on the store

    [Effect c s s'] lists the ways in which a call can leave the store:
    untouched (a read, or a raise before any assignment), or rewritten by
    one of the mutating endpoints under the guards it has passed. *)

Inductive Effect : Call -> Store -> Store -> Prop :=
| Effect_none (c : Call) (s : Store) : Effect c s s
| Effect_create_employee (d : CreateEmployee.t) (s : Store) :
    Effect (Call_create_employee d) s
      (mkStore
         (employee_db s
          ++ [Employee.mk (next_id (map Employee.id (employee_db s)))
                (CreateEmployee.name d) (CreateEmployee.position d)
                (CreateEmployee.department d) EmployeeBalances.default])%list
         (leave_db s))
| Effect_update_employee (i : Z) (d : CreateEmployee.t) (s : Store) :
    Effect (Call_update_employee i d) s
      (mkStore (mutate_first (has_employee_id i) (Employee.set_profile d) (employee_db s))
               (leave_db s))
| Effect_delete_employee (i : Z) (s : Store) (e : Employee.t) (l1 l2 : list Employee.t) :
    Employee.id e = i ->
    employee_db s = (l1 ++ e :: l2)%list ->
    Effect (Call_delete_employee i) s (mkStore (l1 ++ l2)%list (leave_db s))
| Effect_create_leave (i : Z) (d : CreateLeaveRequest.t) (s : Store) (e : Employee.t) :
    find_first (has_employee_id i) (employee_db s) = Some e ->
    Effect (Call_create_leave_request i d) s
      (mkStore (employee_db s)
         (leave_db s
          ++ [LeaveRequest.mk (next_id (map LeaveRequest.id (leave_db s))) i
                (CreateLeaveRequest.leave_type d) (CreateLeaveRequest.start_date d)
                (CreateLeaveRequest.end_date d) (CreateLeaveRequest.reason d) PENDING])%list)
| Effect_approve (request_id : Z) (s : Store) (req : LeaveRequest.t) (e : Employee.t) :
    find_first (has_request_id request_id) (leave_db s) = Some req ->
    find_first (has_employee_id (LeaveRequest.employee_id req)) (employee_db s) = Some e ->
    LeaveRequest.status req <> APPROVED ->
    duration req <= LeaveBalance.remaining (balance e (LeaveRequest.leave_type req)) ->
    Effect (Call_update_leave_request_status request_id (UpdateLeaveStatus.mk APPROVED)) s
      (mkStore
         (mutate_first (has_employee_id (LeaveRequest.employee_id req))
            (Employee.add_used (LeaveRequest.leave_type req) (duration req))
            (employee_db s))
         (mutate_first (has_request_id request_id) (LeaveRequest.set_status APPROVED)
            (leave_db s)))
| Effect_leave_approved (request_id : Z) (new_status : LeaveStatus) (s : Store)
    (req : LeaveRequest.t) (e : Employee.t) :
    find_first (has_request_id request_id) (leave_db s) = Some req ->
    find_first (has_employee_id (LeaveRequest.employee_id req)) (employee_db s) = Some e ->
    LeaveRequest.status req = APPROVED ->
    new_status <> APPROVED ->
    Effect (Call_update_leave_request_status request_id (UpdateLeaveStatus.mk new_status)) s
      (mkStore
         (mutate_first (has_employee_id (LeaveRequest.employee_id req))
            (Employee.add_used (LeaveRequest.leave_type req) (- duration req))
            (employee_db s))
         (mutate_first (has_request_id request_id) (LeaveRequest.set_status new_status)
            (leave_db s)))
| Effect_restatus (request_id : Z) (new_status : LeaveStatus) (s : Store)
    (req : LeaveRequest.t) :
    find_first (has_request_id request_id) (leave_db s) = Some req ->
    (LeaveRequest.status req = APPROVED <-> new_status = APPROVED) ->
    Effect (Call_update_leave_request_status request_id (UpdateLeaveStatus.mk new_status)) s
      (mkStore (employee_db s)
         (mutate_first (has_request_id request_id) (LeaveRequest.set_status new_status)
            (leave_db s))).

(** ** Invariants of the store *)

Definition employee_ids (s : Store) : list Z := map Employee.id (employee_db s).

Definition request_ids (s : Store) : list Z := map LeaveRequest.id (leave_db s).

Definition ids_distinct (s : Store) : Prop :=
  NoDup (employee_ids s) /\ NoDup (request_ids s).

(** No balance is used beyond its allocation. *)
Definition within_allocation (s : Store) : Prop :=
  forall e leave_type,
    In e (employee_db s) ->
    LeaveBalance.used (balance e leave_type) <= LeaveBalance.allocated (balance e leave_type).

(** Employee ids are distinct, and every balance has at least the days of
    the approved requests charged to it. *)
Definition ledger_covers_approved (s : Store) : Prop :=
  NoDup (employee_ids s)
  /\ (forall e leave_type,
         In e (employee_db s) ->
         approved_days (Employee.id e) leave_type (leave_db s)
         <= LeaveBalance.used (balance e leave_type)).

(** ** Sample inputs and stores *)

Definition carol : CreateEmployee.t := CreateEmployee.mk "Carol Diaz" "Analyst" "Finance".

(** Monday 2025-10-20 to Friday 2025-10-24 of personal leave: five days. *)
Definition personal_week : CreateLeaveRequest.t :=
  CreateLeaveRequest.mk PERSONAL (date_of_ymd 2025 10 20) (date_of_ymd 2025 10 24)
    "Moving house.".

Definition set_to (st : LeaveStatus) : UpdateLeaveStatus.t := UpdateLeaveStatus.mk st.

(** Request 1 rejected: Bob's vacation balance is back at 2 used of 20. *)
Definition store_after_rejection : Store :=
  run [Call_update_leave_request_status 1 (set_to REJECTED)] initial_store.

(** Bob deleted: request 1 names employee 2, who is gone. *)
Definition store_with_orphan : Store :=
  run [Call_delete_employee 2] initial_store.

(** Alice files the same personal week twice (requests 2 and 3) and the
    first is approved: her personal balance is used up, request 3 is
    still pending. *)
Definition store_with_exhausted_balance : Store :=
  run [Call_create_leave_request 1 personal_week;
       Call_create_leave_request 1 personal_week;
       Call_update_leave_request_status 2 (set_to APPROVED)] initial_store.

(** Alice files a personal week (request 2), which is pending. *)
Definition store_with_pending_request : Store :=
  run [Call_create_leave_request 1 personal_week] initial_store.

(** ** Outcomes of calls *)

Definition raised {A} (o : Outcome A) : option Exception :=
  match o with
  | Return _ => None
  | Raise e => Some e
  end.

(** The exception a call ends with, if it raises. *)
Definition call_raises (c : Call) (s : Store) : option Exception :=
  match c with
  | Call_read_root => raised (fst (read_root s))
  | Call_get_all_employees => raised (fst (get_all_employees s))
  | Call_get_employee_by_id i => raised (fst (get_employee_by_id i s))
  | Call_create_employee d => raised (fst (create_employee d s))
  | Call_update_employee i d => raised (fst (update_employee i d s))
  | Call_delete_employee i => raised (fst (delete_employee i s))
  | Call_get_employee_leave_balance i => raised (fst (get_employee_leave_balance i s))
  | Call_create_leave_request i d => raised (fst (create_leave_request i d s))
  | Call_get_all_leave_requests st => raised (fst (get_all_leave_requests st s))
  | Call_get_employee_leave_requests i => raised (fst (get_employee_leave_requests i s))
  | Call_update_leave_request_status i u => raised (fst (update_leave_request_status i u s))
  end.

(** An [HTTPException] with status 404 or 400. *)
Definition is_client_error (e : Exception) : bool :=
  match e with
  | HTTPException code _ => (code =? HTTP_404_NOT_FOUND) || (code =? HTTP_400_BAD_REQUEST)
  | ValueError => false
  end.

(** What the balance of [(employee_id, leave_type)] has in [used] beyond
    the days of the approved requests charged to it; [None] when no
    employee has the id. *)
Definition surplus (s : Store) (employee_id : Z) (leave_type : LeaveType) : option Z :=
  match find_first (has_employee_id employee_id) (employee_db s) with
  | Some e =>
      Some (LeaveBalance.used (balance e leave_type)
            - approved_days employee_id leave_type (leave_db s))
  | None => None
  end.

(** The ids handed out by the [create_leave_request] calls of a sequence,
    in order. *)
Fixpoint assigned_request_ids (calls : list Call) (s : Store) : list Z :=
  match calls with
  | [] => []
  | c :: rest =>
      match c with
      | Call_create_leave_request i d =>
          match fst (create_leave_request i d s) with
          | Return r => [LeaveRequest.id r]
          | Raise _ => []
          end
      | _ => []
      end ++ assigned_request_ids rest (exec c s)
  end%list.

(** The two calls that add or remove an employee. *)
Definition changes_registry (c : Call) : bool :=
  match c with
  | Call_create_employee _ | Call_delete_employee _ => true
  | _ => false
  end.

(** * Properties *)

(** ** The calendar helper *)

Lemma weekday_bounds (d : date) : 0 <= weekday d < 7.
Proof. unfold weekday. apply Z.mod_pos_bound. lia. Qed.

Lemma is_monday_to_friday_weekday (d : date) :
  is_monday_to_friday d = negb (weekday d >=? 5).
Proof.
  unfold is_monday_to_friday, day_of_week.
  pose proof (weekday_bounds d) as Hb.
  assert (Hw : weekday d = 0 \/ weekday d = 1 \/ weekday d = 2 \/ weekday d = 3
               \/ weekday d = 4 \/ weekday d = 5 \/ weekday d = 6) by lia.
  destruct Hw as [-> | [-> | [-> | [-> | [-> | [-> | ->]]]]]]; reflexivity.
Qed.

Lemma sum_ones_length {A} (l : list A) :
  sum (map (fun _ => 1) l) = Z.of_nat (List.length l).
Proof.
  induction l as [|x l IH]; [reflexivity|].
  cbn [map sum fold_right List.length]. fold (sum (map (fun _ : A => 1) l)).
  rewrite IH. lia.
Qed.

(** Weekdays and weekend days of [n] consecutive dates add up to [n]. *)
Lemma weekdays_plus_weekends (start_date : date) (n k : nat) :
  Z.of_nat (List.length (filter is_monday_to_friday
                           (dates_from (start_date + Z.of_nat k) n)))
  + Z.of_nat (List.length
                (filter (fun i => weekday (start_date + i) >=? 5)
                        (map Z.of_nat (seq k n))))
  = Z.of_nat n.
Proof.
  revert k. induction n as [|n IH]; intro k; [reflexivity|].
  cbn [dates_from seq map filter].
  replace (start_date + Z.of_nat k + 1) with (start_date + Z.of_nat (S k)) by lia.
  specialize (IH (S k)).
  rewrite is_monday_to_friday_weekday.
  destruct (weekday (start_date + Z.of_nat k) >=? 5); cbn [negb List.length]; lia.
Qed.

Lemma calculate_business_days_ordered (start_date end_date : date) :
  start_date <= end_date ->
  calculate_business_days start_date end_date = weekdays_in_range start_date end_date.
Proof.
  intro Hle. unfold calculate_business_days, weekdays_in_range, inclusive_range, range.
  destruct (start_date >? end_date) eqn:Hgt; [lia|].
  rewrite sum_ones_length.
  pose proof (weekdays_plus_weekends start_date
                (Z.to_nat (end_date - start_date + 1)) 0) as H.
  rewrite Z.add_0_r in H. rewrite Z2Nat.id in H by lia. lia.
Qed.

Lemma calculate_business_days_nonneg (start_date end_date : date) :
  0 <= calculate_business_days start_date end_date.
Proof.
  destruct (Z_le_gt_dec start_date end_date) as [Hle|Hgt].
  - rewrite calculate_business_days_ordered by exact Hle.
    unfold weekdays_in_range. lia.
  - unfold calculate_business_days.
    destruct (start_date >? end_date) eqn:E; lia.
Qed.

(** C7. [calculate_business_days] returns 0 when the start date is after
    the end date; otherwise it returns the number of dates of the inclusive
    range from start to end that fall on Monday to Friday.  From Monday
    2025-10-20 to Wednesday 2025-10-22 it gives 3, and over the weekend
    2025-10-18 to 2025-10-19 it gives 0. *)
Theorem calculate_business_days_spec :
  (forall start_date end_date : date,
      calculate_business_days start_date end_date =
      if start_date >? end_date then 0
      else weekdays_in_range start_date end_date)
  /\ calculate_business_days (date_of_ymd 2025 10 20) (date_of_ymd 2025 10 22) = 3
  /\ calculate_business_days (date_of_ymd 2025 10 18) (date_of_ymd 2025 10 19) = 0.
Proof.
  split; [|split; reflexivity].
  intros start_date end_date.
  destruct (start_date >? end_date) eqn:Hgt.
  - unfold calculate_business_days. rewrite Hgt. reflexivity.
  - apply calculate_business_days_ordered. lia.
Qed.

(** ** Objects found and mutated inside a list *)

Section ListObjectFacts.
Context {A : Type}.
Implicit Types (p : A -> bool) (f : A -> A) (l : list A).

Lemma find_first_In p l x : find_first p l = Some x -> In x l /\ p x = true.
Proof.
  induction l as [|y l IH]; cbn; [discriminate|].
  destruct (p y) eqn:E.
  - intros [= ->]. auto.
  - intro H. destruct (IH H). auto.
Qed.

Lemma find_first_none p l : find_first p l = None -> forall x, In x l -> p x = false.
Proof.
  induction l as [|y l IH]; cbn; [contradiction|].
  destruct (p y) eqn:E; [discriminate|].
  intros H x [<-|Hin]; auto.
Qed.

Lemma find_first_exists p l x : In x l -> p x = true -> exists y, find_first p l = Some y.
Proof.
  intros Hin Hp. destruct (find_first p l) eqn:E; [eauto|].
  rewrite (find_first_none _ _ E x Hin) in Hp. discriminate.
Qed.

(** The found object splits the list, and mutation rewrites that position. *)
Lemma find_first_split p l x :
  find_first p l = Some x ->
  exists l1 l2,
    l = (l1 ++ x :: l2)%list
    /\ (forall y, In y l1 -> p y = false)
    /\ forall f, mutate_first p f l = (l1 ++ f x :: l2)%list.
Proof.
  induction l as [|y l IH]; cbn; [discriminate|].
  destruct (p y) eqn:E.
  - intros [= ->]. exists [], l. cbn. split; [reflexivity|].
    split; [contradiction|]. intro f. reflexivity.
  - intro H. destruct (IH H) as (l1 & l2 & -> & Hl1 & Hm).
    exists (y :: l1), l2. cbn. split; [reflexivity|]. split.
    + intros z [<-|Hz]; auto.
    + intro f. rewrite Hm. reflexivity.
Qed.

Lemma mutate_first_none p f l : find_first p l = None -> mutate_first p f l = l.
Proof.
  induction l as [|y l IH]; cbn; [reflexivity|].
  destruct (p y); [discriminate|]. intro H. rewrite IH by exact H. reflexivity.
Qed.

Lemma mutate_first_In p f l y :
  In y (mutate_first p f l) ->
  In y l \/ exists x, find_first p l = Some x /\ y = f x.
Proof.
  induction l as [|z l IH]; cbn; [contradiction|].
  destruct (p z) eqn:E; cbn.
  - intros [<-|Hin]; eauto.
  - intros [<-|Hin]; auto. destruct (IH Hin) as [H|H]; auto.
Qed.

Lemma mutate_first_map {B} (g : A -> B) p f l :
  (forall x, g (f x) = g x) -> map g (mutate_first p f l) = map g l.
Proof.
  intro Hg. induction l as [|y l IH]; cbn; [reflexivity|].
  destruct (p y); cbn; [rewrite Hg | rewrite IH]; reflexivity.
Qed.

Lemma mutate_first_inverse p f g l :
  (forall x, p (f x) = p x) -> (forall x, g (f x) = x) ->
  mutate_first p g (mutate_first p f l) = l.
Proof.
  intros Hp Hg. induction l as [|y l IH]; cbn; [reflexivity|].
  destruct (p y) eqn:E; cbn.
  - rewrite Hp, E, Hg. reflexivity.
  - rewrite E, IH. reflexivity.
Qed.

Lemma find_first_mutate_first p f l :
  (forall x, p (f x) = p x) ->
  find_first p (mutate_first p f l) = option_map f (find_first p l).
Proof.
  intro Hp. induction l as [|y l IH]; cbn; [reflexivity|].
  destruct (p y) eqn:E; cbn.
  - rewrite Hp, E. reflexivity.
  - rewrite E. exact IH.
Qed.

Lemma list_remove_split (eqb : A -> A -> bool) x l l' :
  list_remove eqb x l = Some l' ->
  exists l1 y l2, l = (l1 ++ y :: l2)%list /\ l' = (l1 ++ l2)%list /\ eqb y x = true.
Proof.
  revert l'. induction l as [|z l IH]; cbn; intro l'; [discriminate|].
  destruct (eqb z x) eqn:E.
  - intros [= <-]. exists [], z, l. auto.
  - destruct (list_remove eqb x l) as [r|]; [|discriminate].
    intros [= <-]. destruct (IH r eq_refl) as (l1 & y & l2 & -> & -> & Hy).
    exists (z :: l1), y, l2. auto.
Qed.

Lemma list_remove_present (eqb : A -> A -> bool) x l :
  (forall y, eqb y y = true) -> In x l -> exists l', list_remove eqb x l = Some l'.
Proof.
  intros Hrefl. induction l as [|z l IH]; cbn; [contradiction|].
  intros [->|Hin].
  - rewrite Hrefl. eauto.
  - destruct (eqb z x); [eauto|]. destruct (IH Hin) as [l' ->]. eauto.
Qed.

End ListObjectFacts.

(** ** Ledger arithmetic on one employee object *)

Lemma LeaveType_eqb_eq (a b : LeaveType) : LeaveType_eqb a b = true <-> a = b.
Proof. destruct a, b; cbn; split; congruence. Qed.

Lemma LeaveStatus_eqb_eq (a b : LeaveStatus) : LeaveStatus_eqb a b = true <-> a = b.
Proof. destruct a, b; cbn; split; congruence. Qed.

Lemma LeaveStatus_eqb_neq (a b : LeaveStatus) : LeaveStatus_eqb a b = false <-> a <> b.
Proof. destruct a, b; cbn; split; congruence. Qed.

Lemma balance_add_used_same (leave_type : LeaveType) (n : Z) (e : Employee.t) :
  balance (Employee.add_used leave_type n e) leave_type =
  LeaveBalance.mk (LeaveBalance.allocated (balance e leave_type))
                  (LeaveBalance.used (balance e leave_type) + n).
Proof. destruct leave_type; reflexivity. Qed.

Lemma balance_add_used_other (leave_type other : LeaveType) (n : Z) (e : Employee.t) :
  other <> leave_type ->
  balance (Employee.add_used leave_type n e) other = balance e other.
Proof. destruct leave_type, other; intro H; try reflexivity; congruence. Qed.

Lemma add_used_id (leave_type : LeaveType) (n : Z) (e : Employee.t) :
  Employee.id (Employee.add_used leave_type n e) = Employee.id e.
Proof. reflexivity. Qed.

Lemma add_used_inverse (leave_type : LeaveType) (n : Z) (e : Employee.t) :
  Employee.add_used leave_type (- n) (Employee.add_used leave_type n e) = e.
Proof.
  destruct e as [i nm po de [[va vu] [sa su] [pa pu]]].
  destruct leave_type; unfold Employee.add_used, EmployeeBalances.add_used; cbn;
    repeat f_equal; lia.
Qed.

Lemma has_employee_id_add_used (i : Z) (leave_type : LeaveType) (n : Z) (e : Employee.t) :
  has_employee_id i (Employee.add_used leave_type n e) = has_employee_id i e.
Proof. reflexivity. Qed.

Lemma has_employee_id_true (i : Z) (e : Employee.t) :
  has_employee_id i e = true <-> Employee.id e = i.
Proof. unfold has_employee_id. apply Z.eqb_eq. Qed.

Lemma has_request_id_set_status (i : Z) (st : LeaveStatus) (r : LeaveRequest.t) :
  has_request_id i (LeaveRequest.set_status st r) = has_request_id i r.
Proof. reflexivity. Qed.

(** ** What each endpoint evaluates to *)

Lemma find_employee_found (i : Z) (s : Store) (e : Employee.t) :
  find_first (has_employee_id i) (employee_db s) = Some e ->
  find_employee i s = (Return e, s).
Proof. intro H. unfold find_employee, bind, gets, ret. rewrite H. reflexivity. Qed.

Lemma find_employee_missing (i : Z) (s : Store) :
  find_first (has_employee_id i) (employee_db s) = None ->
  find_employee i s = (Raise (employee_not_found i), s).
Proof. intro H. unfold find_employee, bind, gets, raise. rewrite H. reflexivity. Qed.

Lemma update_status_no_request (request_id : Z) (u : UpdateLeaveStatus.t) (s : Store) :
  find_first (has_request_id request_id) (leave_db s) = None ->
  update_leave_request_status request_id u s = (Raise (request_not_found request_id), s).
Proof.
  intro H. unfold update_leave_request_status, bind, gets, raise. rewrite H. reflexivity.
Qed.

Lemma update_status_no_employee (request_id : Z) (u : UpdateLeaveStatus.t) (s : Store)
  (req : LeaveRequest.t) :
  find_first (has_request_id request_id) (leave_db s) = Some req ->
  find_first (has_employee_id (LeaveRequest.employee_id req)) (employee_db s) = None ->
  update_leave_request_status request_id u s =
  (Raise (employee_not_found (LeaveRequest.employee_id req)), s).
Proof.
  intros Hr He. unfold update_leave_request_status, bind at 1, gets. rewrite Hr.
  unfold bind at 1. rewrite (find_employee_missing _ _ He). reflexivity.
Qed.

(** With the request and its employee found, the endpoint is a three-way
    branch on the old and the new status. *)
Lemma update_status_found (request_id : Z) (u : UpdateLeaveStatus.t) (s : Store)
  (req : LeaveRequest.t) (e : Employee.t) :
  find_first (has_request_id request_id) (leave_db s) = Some req ->
  find_first (has_employee_id (LeaveRequest.employee_id req)) (employee_db s) = Some e ->
  update_leave_request_status request_id u s =
  let leave_type := LeaveRequest.leave_type req in
  let new_status := UpdateLeaveStatus.status u in
  let requests' :=
    mutate_first (has_request_id request_id) (LeaveRequest.set_status new_status)
                 (leave_db s) in
  let employees' n :=
    mutate_first (has_employee_id (Employee.id e)) (Employee.add_used leave_type n)
                 (employee_db s) in
  if LeaveStatus_eqb new_status APPROVED
     && negb (LeaveStatus_eqb (LeaveRequest.status req) APPROVED)
  then
    if LeaveBalance.remaining (balance e leave_type) <? duration req
    then (Raise (insufficient_on_approve leave_type), s)
    else (Return (LeaveRequest.set_status new_status req),
          mkStore (employees' (duration req)) requests')
  else if LeaveStatus_eqb (LeaveRequest.status req) APPROVED
          && negb (LeaveStatus_eqb new_status APPROVED)
  then (Return (LeaveRequest.set_status new_status req),
        mkStore (employees' (- duration req)) requests')
  else (Return (LeaveRequest.set_status new_status req),
        mkStore (employee_db s) requests').
Proof.
  intros Hr He. unfold update_leave_request_status, bind at 1, gets. rewrite Hr.
  unfold bind at 1. rewrite (find_employee_found _ _ _ He).
  unfold balance, duration. cbv zeta.
  destruct (LeaveStatus_eqb (UpdateLeaveStatus.status u) APPROVED
            && negb (LeaveStatus_eqb (LeaveRequest.status req) APPROVED)).
  - destruct (LeaveBalance.remaining _ <? _); reflexivity.
  - destruct (LeaveStatus_eqb (LeaveRequest.status req) APPROVED
              && negb (LeaveStatus_eqb (UpdateLeaveStatus.status u) APPROVED));
      reflexivity.
Qed.

Lemma create_leave_found (employee_id : Z) (d : CreateLeaveRequest.t) (s : Store)
  (e : Employee.t) :
  find_first (has_employee_id employee_id) (employee_db s) = Some e ->
  create_leave_request employee_id d s =
  let leave_duration :=
    calculate_business_days (CreateLeaveRequest.start_date d)
                            (CreateLeaveRequest.end_date d) in
  let leave_type := CreateLeaveRequest.leave_type d in
  let new_request :=
    LeaveRequest.mk (next_id (map LeaveRequest.id (leave_db s))) employee_id leave_type
      (CreateLeaveRequest.start_date d) (CreateLeaveRequest.end_date d)
      (CreateLeaveRequest.reason d) PENDING in
  if leave_duration <=? 0 then (Raise invalid_range, s)
  else if LeaveBalance.remaining (balance e leave_type) <? leave_duration
  then (Raise (insufficient_on_create leave_type leave_duration
                 (LeaveBalance.remaining (balance e leave_type))), s)
  else (Return new_request,
        mkStore (employee_db s) (leave_db s ++ [new_request])%list).
Proof.
  intro He. unfold create_leave_request, bind at 1.
  rewrite (find_employee_found _ _ _ He). unfold balance. cbv zeta.
  destruct (calculate_business_days _ _ <=? 0); [reflexivity|].
  destruct (LeaveBalance.remaining _ <? _); reflexivity.
Qed.

Lemma create_leave_missing (employee_id : Z) (d : CreateLeaveRequest.t) (s : Store) :
  find_first (has_employee_id employee_id) (employee_db s) = None ->
  create_leave_request employee_id d s = (Raise (employee_not_found employee_id), s).
Proof.
  intro He. unfold create_leave_request, bind at 1.
  rewrite (find_employee_missing _ _ He). reflexivity.
Qed.

(** ** Status updates *)

(** C9. When the request that [request_id] designates names an employee id
    that no employee of the registry has (an orphaned request),
    [update_leave_request_status] raises the 404 "Employee with ID <id> not
    found" carrying that id, and the store (the status of the request and
    every balance) is exactly as before. *)
Theorem update_status_of_orphan_not_found
  (request_id : Z) (u : UpdateLeaveStatus.t) (s : Store) (req : LeaveRequest.t) :
  find_first (has_request_id request_id) (leave_db s) = Some req ->
  find_first (has_employee_id (LeaveRequest.employee_id req)) (employee_db s) = None ->
  update_leave_request_status request_id u s =
  (Raise (HTTPException 404
            ("Employee with ID " ++ str (LeaveRequest.employee_id req) ++ " not found")),
   s).
Proof. intros Hr He. exact (update_status_no_employee _ u _ _ Hr He). Qed.

Lemma update_status_of_orphan_not_found_witness :
  update_leave_request_status 1 (set_to REJECTED) store_with_orphan =
  (Raise (HTTPException 404 "Employee with ID 2 not found"), store_with_orphan).
Proof.
  apply (update_status_of_orphan_not_found 1 (set_to REJECTED) store_with_orphan
           (LeaveRequest.mk 1 2 VACATION (date_of_ymd 2025 10 20)
              (date_of_ymd 2025 10 22) "Family vacation." APPROVED));
    reflexivity.
Defined.

(** C5. When the request that [request_id] designates is not approved, its
    employee exists, and its duration exceeds what remains of the balance
    of its leave type, approving it raises the 400 "Cannot approve..."
    (insufficient balance) and the store (the stored status and every
    balance) is exactly as before. *)
Theorem approve_insufficient_is_atomic
  (request_id : Z) (s : Store) (req : LeaveRequest.t) (e : Employee.t) :
  find_first (has_request_id request_id) (leave_db s) = Some req ->
  LeaveRequest.status req <> APPROVED ->
  find_first (has_employee_id (LeaveRequest.employee_id req)) (employee_db s) = Some e ->
  LeaveBalance.remaining (balance e (LeaveRequest.leave_type req)) < duration req ->
  update_leave_request_status request_id (UpdateLeaveStatus.mk APPROVED) s =
  (Raise (insufficient_on_approve (LeaveRequest.leave_type req)), s).
Proof.
  intros Hr Hst He Hrem. rewrite (update_status_found _ _ _ _ _ Hr He). cbv zeta.
  apply LeaveStatus_eqb_neq in Hst. cbn [UpdateLeaveStatus.status].
  rewrite Hst. cbn [LeaveStatus_eqb negb andb].
  apply Z.ltb_lt in Hrem. rewrite Hrem. reflexivity.
Qed.

Lemma approve_insufficient_is_atomic_witness :
  update_leave_request_status 3 (UpdateLeaveStatus.mk APPROVED) store_with_exhausted_balance =
  (Raise (HTTPException 400 "Cannot approve. Employee has insufficient personal balance."),
   store_with_exhausted_balance).
Proof.
  apply (approve_insufficient_is_atomic 3 store_with_exhausted_balance
           (LeaveRequest.mk 3 1 PERSONAL (date_of_ymd 2025 10 20)
              (date_of_ymd 2025 10 24) "Moving house." PENDING)
           (Employee.mk 1 "Alice Smith" "Software Engineer" "Technology"
              (EmployeeBalances.mk (LeaveBalance.mk 15 0) (LeaveBalance.mk 10 0)
                                   (LeaveBalance.mk 5 5))));
    [reflexivity | discriminate | reflexivity | vm_compute; reflexivity].
Defined.

(** C3. When the request that [request_id] designates is not approved, its
    employee exists and at least the request's duration remains of the
    balance of its leave type, approving it returns the request as approved
    and rewrites that one employee object only: the balance of the request's
    leave type keeps its allocation and has [used] increased by exactly
    [calculate_business_days start_date end_date], the other balances are
    the same.  Approving a request that is already approved changes nothing
    in the employee list. *)
Theorem approve_credits_exactly_once
  (request_id : Z) (s : Store) (req : LeaveRequest.t) :
  find_first (has_request_id request_id) (leave_db s) = Some req ->
  let leave_type := LeaveRequest.leave_type req in
  let r := update_leave_request_status request_id (UpdateLeaveStatus.mk APPROVED) s in
  (LeaveRequest.status req <> APPROVED ->
   forall e : Employee.t,
     find_first (has_employee_id (LeaveRequest.employee_id req)) (employee_db s) = Some e ->
     duration req <= LeaveBalance.remaining (balance e leave_type) ->
     exists l1 l2 e',
       fst r = Return (LeaveRequest.set_status APPROVED req)
       /\ employee_db s = (l1 ++ e :: l2)%list
       /\ employee_db (snd r) = (l1 ++ e' :: l2)%list
       /\ balance e' leave_type =
          LeaveBalance.mk
            (LeaveBalance.allocated (balance e leave_type))
            (LeaveBalance.used (balance e leave_type)
             + calculate_business_days (LeaveRequest.start_date req)
                                       (LeaveRequest.end_date req))
       /\ forall other, other <> leave_type -> balance e' other = balance e other)
  /\ (LeaveRequest.status req = APPROVED -> employee_db (snd r) = employee_db s).
Proof.
  intros Hr leave_type r. split.
  - intros Hst e He Hrem. subst r.
    rewrite (update_status_found _ _ _ _ _ Hr He). cbv zeta.
    apply LeaveStatus_eqb_neq in Hst. cbn [UpdateLeaveStatus.status].
    rewrite Hst. cbn [LeaveStatus_eqb negb andb].
    destruct (LeaveBalance.remaining _ <? duration req) eqn:E;
      [apply Z.ltb_lt in E; fold leave_type in E; lia|].
    destruct (find_first_In _ _ _ He) as [_ Hid]. apply has_employee_id_true in Hid.
    rewrite Hid.
    destruct (find_first_split _ _ _ He) as (l1 & l2 & Hl & _ & Hm).
    exists l1, l2, (Employee.add_used leave_type (duration req) e). cbn [fst snd employee_db].
    repeat split.
    + exact Hl.
    + apply Hm.
    + apply balance_add_used_same.
    + intros other Ho. apply balance_add_used_other. exact Ho.
  - intro Hst. subst r.
    destruct (find_first (has_employee_id (LeaveRequest.employee_id req)) (employee_db s))
      as [e|] eqn:He.
    + rewrite (update_status_found _ _ _ _ _ Hr He). cbv zeta.
      rewrite Hst. reflexivity.
    + rewrite (update_status_no_employee _ _ _ _ Hr He). reflexivity.
Qed.

Lemma approve_credits_exactly_once_witness :
  (exists e',
      In e' (employee_db (snd (update_leave_request_status 1 (UpdateLeaveStatus.mk APPROVED)
                                 store_after_rejection)))
      /\ balance e' VACATION = LeaveBalance.mk 20 5)
  /\ employee_db (snd (update_leave_request_status 1 (UpdateLeaveStatus.mk APPROVED)
                         initial_store))
     = employee_db initial_store.
Proof.
  split.
  - destruct (approve_credits_exactly_once 1 store_after_rejection
                (LeaveRequest.mk 1 2 VACATION (date_of_ymd 2025 10 20)
                   (date_of_ymd 2025 10 22) "Family vacation." REJECTED) eq_refl)
      as [H _].
    destruct (H ltac:(discriminate)
                (Employee.mk 2 "Bob Johnson" "HR Manager" "Human Resources"
                   (EmployeeBalances.mk (LeaveBalance.mk 20 2) (LeaveBalance.mk 10 1)
                      (LeaveBalance.mk 5 0)))
                eq_refl ltac:(vm_compute; discriminate))
      as (l1 & l2 & e' & _ & _ & Hdb & Hb & _).
    exists e'. split.
    + rewrite Hdb. apply in_elt.
    + exact Hb.
  - apply (approve_credits_exactly_once 1 initial_store
             (LeaveRequest.mk 1 2 VACATION (date_of_ymd 2025 10 20)
                (date_of_ymd 2025 10 22) "Family vacation." APPROVED) eq_refl).
    reflexivity.
Defined.

(** C4. When the request that [request_id] designates is approved and its
    employee exists, setting it to rejected or to pending rewrites that one
    employee object only: the balance of the request's leave type keeps its
    allocation and has [used] decreased by exactly
    [calculate_business_days start_date end_date], the other balances are
    the same.  Hence approving a pending request and then rejecting it gives
    back the employee list of before the two calls, with the request left
    rejected. *)
Theorem leaving_approved_reclaims
  (request_id : Z) (s : Store) (req : LeaveRequest.t) (e : Employee.t) :
  find_first (has_request_id request_id) (leave_db s) = Some req ->
  find_first (has_employee_id (LeaveRequest.employee_id req)) (employee_db s) = Some e ->
  let leave_type := LeaveRequest.leave_type req in
  (LeaveRequest.status req = APPROVED ->
   forall new_status : LeaveStatus,
     new_status = REJECTED \/ new_status = PENDING ->
     let r := update_leave_request_status request_id (UpdateLeaveStatus.mk new_status) s in
     exists l1 l2 e',
       fst r = Return (LeaveRequest.set_status new_status req)
       /\ employee_db s = (l1 ++ e :: l2)%list
       /\ employee_db (snd r) = (l1 ++ e' :: l2)%list
       /\ balance e' leave_type =
          LeaveBalance.mk
            (LeaveBalance.allocated (balance e leave_type))
            (LeaveBalance.used (balance e leave_type)
             - calculate_business_days (LeaveRequest.start_date req)
                                       (LeaveRequest.end_date req))
       /\ forall other, other <> leave_type -> balance e' other = balance e other)
  /\ (LeaveRequest.status req = PENDING ->
      duration req <= LeaveBalance.remaining (balance e leave_type) ->
      let approved := update_leave_request_status request_id (UpdateLeaveStatus.mk APPROVED) s in
      let rejected :=
        update_leave_request_status request_id (UpdateLeaveStatus.mk REJECTED) (snd approved) in
      fst approved = Return (LeaveRequest.set_status APPROVED req)
      /\ fst rejected = Return (LeaveRequest.set_status REJECTED req)
      /\ employee_db (snd rejected) = employee_db s
      /\ find_first (has_request_id request_id) (leave_db (snd rejected))
         = Some (LeaveRequest.set_status REJECTED req)).
Proof.
  intros Hr He leave_type.
  destruct (find_first_In _ _ _ He) as [_ Hid]. apply has_employee_id_true in Hid.
  split.
  - intros Hst new_status Hnew r. subst r.
    rewrite (update_status_found _ _ _ _ _ Hr He). cbv zeta.
    cbn [UpdateLeaveStatus.status]. rewrite Hst.
    assert (Hn : LeaveStatus_eqb new_status APPROVED = false)
      by (destruct Hnew; subst; reflexivity).
    rewrite Hn. cbn [LeaveStatus_eqb negb andb].
    rewrite Hid.
    destruct (find_first_split _ _ _ He) as (l1 & l2 & Hl & _ & Hm).
    exists l1, l2, (Employee.add_used leave_type (- duration req) e).
    cbn [fst snd employee_db]. repeat split.
    + exact Hl.
    + apply Hm.
    + rewrite balance_add_used_same. unfold duration. f_equal.
    + intros other Ho. apply balance_add_used_other. exact Ho.
  - intros Hst Hrem approved rejected.
    assert (Ha : approved =
                 (Return (LeaveRequest.set_status APPROVED req),
                  mkStore
                    (mutate_first (has_employee_id (LeaveRequest.employee_id req))
                       (Employee.add_used leave_type (duration req)) (employee_db s))
                    (mutate_first (has_request_id request_id)
                       (LeaveRequest.set_status APPROVED) (leave_db s)))).
    { subst approved. rewrite (update_status_found _ _ _ _ _ Hr He). cbv zeta.
      cbn [UpdateLeaveStatus.status]. rewrite Hst. cbn [LeaveStatus_eqb negb andb].
      destruct (LeaveBalance.remaining _ <? duration req) eqn:E;
        [apply Z.ltb_lt in E; fold leave_type in E; lia|].
      rewrite Hid. reflexivity. }
    subst rejected. rewrite Ha. cbn [fst snd].
    set (s1 := mkStore _ _).
    assert (Hr1 : find_first (has_request_id request_id) (leave_db s1)
                  = Some (LeaveRequest.set_status APPROVED req)).
    { subst s1. cbn [leave_db]. rewrite find_first_mutate_first, Hr; [reflexivity|].
      intro x. apply has_request_id_set_status. }
    assert (He1 : find_first
                    (has_employee_id
                       (LeaveRequest.employee_id (LeaveRequest.set_status APPROVED req)))
                    (employee_db s1)
                  = Some (Employee.add_used leave_type (duration req) e)).
    { subst s1. cbn [employee_db LeaveRequest.set_status LeaveRequest.employee_id].
      rewrite find_first_mutate_first, He; [reflexivity|].
      intro x. apply has_employee_id_add_used. }
    rewrite (update_status_found _ _ _ _ _ Hr1 He1). cbv zeta.
    cbn [UpdateLeaveStatus.status LeaveRequest.set_status LeaveRequest.status
         LeaveStatus_eqb negb andb fst snd employee_db leave_db LeaveRequest.leave_type].
    rewrite add_used_id, Hid.
    split; [reflexivity|]. split; [reflexivity|]. split.
    + subst s1. cbn [employee_db]. unfold duration.
      cbn [LeaveRequest.start_date LeaveRequest.end_date].
      apply mutate_first_inverse.
      * intro x. apply has_employee_id_add_used.
      * intro x. apply add_used_inverse.
    + rewrite find_first_mutate_first, Hr1; [reflexivity|].
      intro x. apply has_request_id_set_status.
Qed.

Lemma leaving_approved_reclaims_witness :
  (exists e',
      In e' (employee_db (snd (update_leave_request_status 1 (UpdateLeaveStatus.mk REJECTED)
                                 initial_store)))
      /\ balance e' VACATION = LeaveBalance.mk 20 2)
  /\ employee_db
       (snd (update_leave_request_status 2 (UpdateLeaveStatus.mk REJECTED)
               (snd (update_leave_request_status 2 (UpdateLeaveStatus.mk APPROVED)
                       store_with_pending_request))))
     = employee_db store_with_pending_request.
Proof.
  split.
  - destruct (leaving_approved_reclaims 1 initial_store
                (LeaveRequest.mk 1 2 VACATION (date_of_ymd 2025 10 20)
                   (date_of_ymd 2025 10 22) "Family vacation." APPROVED)
                (Employee.mk 2 "Bob Johnson" "HR Manager" "Human Resources"
                   (EmployeeBalances.mk (LeaveBalance.mk 20 5) (LeaveBalance.mk 10 1)
                      (LeaveBalance.mk 5 0)))
                eq_refl eq_refl) as [H _].
    destruct (H eq_refl REJECTED (or_introl eq_refl))
      as (l1 & l2 & e' & _ & _ & Hdb & Hb & _).
    exists e'. split.
    + rewrite Hdb. apply in_elt.
    + exact Hb.
  - destruct (leaving_approved_reclaims 2 store_with_pending_request
                (LeaveRequest.mk 2 1 PERSONAL (date_of_ymd 2025 10 20)
                   (date_of_ymd 2025 10 24) "Moving house." PENDING)
                (Employee.mk 1 "Alice Smith" "Software Engineer" "Technology"
                   EmployeeBalances.default)
                eq_refl eq_refl) as [_ H].
    destruct (H eq_refl ltac:(vm_compute; discriminate)) as (_ & _ & Hdb & _).
    exact Hdb.
Defined.

(** ** Creating a leave request *)

(** C6. For an existing employee, [create_leave_request] raises the 400
    "End date must be after start date." (invalid range) exactly when the
    business-day count of the two dates is at most 0; with a positive count
    it raises the 400 "Insufficient ... leave balance" exactly when what
    remains of the balance of the requested type is below that count;
    otherwise it returns a new pending request and appends it to the request
    list.  In every case the employee list, hence every [used] field, is as
    before, and a raise leaves the whole store as before. *)
Theorem create_leave_request_spec
  (employee_id : Z) (d : CreateLeaveRequest.t) (s : Store) (e : Employee.t) :
  find_first (has_employee_id employee_id) (employee_db s) = Some e ->
  let leave_type := CreateLeaveRequest.leave_type d in
  let leave_duration :=
    calculate_business_days (CreateLeaveRequest.start_date d)
                            (CreateLeaveRequest.end_date d) in
  let remaining := LeaveBalance.remaining (balance e leave_type) in
  let r := create_leave_request employee_id d s in
  (fst r = Raise invalid_range <-> leave_duration <= 0)
  /\ (0 < leave_duration ->
      (fst r = Raise (insufficient_on_create leave_type leave_duration remaining)
       <-> remaining < leave_duration))
  /\ (0 < leave_duration -> leave_duration <= remaining ->
      exists new_request,
        fst r = Return new_request
        /\ leave_db (snd r) = (leave_db s ++ [new_request])%list
        /\ LeaveRequest.status new_request = PENDING
        /\ LeaveRequest.employee_id new_request = employee_id
        /\ LeaveRequest.leave_type new_request = leave_type
        /\ LeaveRequest.start_date new_request = CreateLeaveRequest.start_date d
        /\ LeaveRequest.end_date new_request = CreateLeaveRequest.end_date d)
  /\ employee_db (snd r) = employee_db s
  /\ (forall exn, fst r = Raise exn -> snd r = s).
Proof.
  intros He leave_type leave_duration remaining r.
  subst r. rewrite (create_leave_found _ _ _ _ He). cbv zeta.
  fold leave_type leave_duration remaining.
  destruct (leave_duration <=? 0) eqn:Ed.
  - apply Z.leb_le in Ed. cbn [fst snd].
    split; [split; [intros _; exact Ed | reflexivity]|].
    split; [intro; lia|]. split; [intro; lia|]. split; [reflexivity|].
    intros; reflexivity.
  - apply Z.leb_gt in Ed.
    destruct (remaining <? leave_duration) eqn:Er.
    + apply Z.ltb_lt in Er. cbn [fst snd].
      split; [split; [intro H; destruct leave_type; discriminate H | intro; lia]|].
      split; [intros _; split; [intros _; exact Er | reflexivity]|].
      split; [intros; lia|]. split; [reflexivity|]. intros; reflexivity.
    + apply Z.ltb_ge in Er. cbn [fst snd employee_db leave_db].
      split; [split; [discriminate | intro; lia]|].
      split; [intros _; split; [discriminate | intro; lia]|].
      split; [|split; [reflexivity | discriminate]].
      intros _ _. eexists. split; [reflexivity|]. repeat split.
Qed.

Lemma create_leave_request_spec_witness :
  fst (create_leave_request 1 personal_week initial_store)
  = Return (LeaveRequest.mk 2 1 PERSONAL (date_of_ymd 2025 10 20) (date_of_ymd 2025 10 24)
              "Moving house." PENDING)
  /\ employee_db (snd (create_leave_request 1 personal_week initial_store))
     = employee_db initial_store.
Proof.
  pose proof (create_leave_request_spec 1 personal_week initial_store
                (Employee.mk 1 "Alice Smith" "Software Engineer" "Technology"
                   EmployeeBalances.default) eq_refl) as H.
  cbv zeta in H. destruct H as (_ & _ & _ & Hdb & _).
  split; [reflexivity | exact Hdb].
Defined.

(** ** The text of the insufficient-balance errors *)

Lemma append_assoc (a b c : string) : (a ++ b) ++ c = a ++ b ++ c.
Proof. induction a as [|ch a IH]; cbn; [reflexivity | rewrite IH; reflexivity]. Qed.

Lemma append_empty_r (a : string) : a ++ "" = a.
Proof. induction a as [|ch a IH]; cbn; [reflexivity | rewrite IH; reflexivity]. Qed.

Lemma substring_prefix (n b : string) : substring 0 (String.length n) (n ++ b) = n.
Proof.
  induction n as [|ch n IH]; cbn; [destruct b; reflexivity | rewrite IH; reflexivity].
Qed.

Lemma substring_middle (a n b : string) :
  substring (String.length a) (String.length n) (a ++ n ++ b) = n.
Proof. induction a as [|ch a IH]; cbn; [apply substring_prefix | exact IH]. Qed.

Lemma mentions_middle (a n b : string) : mentions n (a ++ n ++ b) = true.
Proof.
  unfold mentions. destruct (index 0 n (a ++ n ++ b)) eqn:E; [reflexivity|].
  exfalso. destruct n as [|ch n].
  - apply index_correct4 in E. inversion E.
  - apply (index_correct3 0 (String.length a) _ _ E); [discriminate | apply Nat.le_0_l |].
    apply substring_middle.
Qed.

Lemma mentions_intro (a n b hay : string) : hay = a ++ n ++ b -> mentions n hay = true.
Proof. intros ->. apply mentions_middle. Qed.

(** The error of [create_leave_request] spells out both quantities. *)
Lemma insufficient_on_create_mentions_units
  (leave_type : LeaveType) (leave_duration remaining : Z) :
  exists detail,
    insufficient_on_create leave_type leave_duration remaining = HTTPException 400 detail
    /\ mentions ("Required: " ++ str leave_duration) detail = true
    /\ mentions ("Available: " ++ str remaining) detail = true.
Proof.
  eexists. split; [reflexivity|]. split.
  - apply (mentions_intro
             ("Insufficient " ++ LeaveType_value leave_type ++ " leave balance. ")
             _ (", Available: " ++ str remaining)).
    rewrite !append_assoc. reflexivity.
  - apply (mentions_intro
             ("Insufficient " ++ LeaveType_value leave_type ++ " leave balance. "
              ++ "Required: " ++ str leave_duration ++ ", ")
             _ "").
    rewrite !append_assoc, append_empty_r. reflexivity.
Qed.

(** The error of [update_leave_request_status] holds no number at all. *)
Lemma insufficient_on_approve_has_no_digit (leave_type : LeaveType) :
  exists detail,
    insufficient_on_approve leave_type = HTTPException 400 detail
    /\ has_digit detail = false.
Proof. destruct leave_type; eexists; split; reflexivity. Qed.

(** C8. Both leave endpoints can fail for lack of balance, and the claim is
    that the message then carries the required and the available number of
    units.  With Alice's personal balance used up (5 of 5), filing another
    five-day personal request raises "... Required: 5, Available: 0", but
    approving the pending five-day request 3 raises "Cannot approve.
    Employee has insufficient personal balance.", a text that mentions
    neither 5 nor 0 and holds no digit. *)
Theorem approve_insufficient_message_omits_units :
  fst (create_leave_request 1 personal_week store_with_exhausted_balance)
  = Raise (HTTPException 400
             "Insufficient personal leave balance. Required: 5, Available: 0")
  /\ exists detail,
      fst (update_leave_request_status 3 (UpdateLeaveStatus.mk APPROVED)
             store_with_exhausted_balance)
      = Raise (HTTPException 400 detail)
      /\ detail = "Cannot approve. Employee has insufficient personal balance."
      /\ mentions (str 5) detail = false
      /\ mentions (str 0) detail = false
      /\ has_digit detail = false.
Proof.
  split; [reflexivity|]. eexists. split; [reflexivity|]. repeat split.
Qed.

(** ** Every call has one of the listed effects *)

Lemma LeaveBalance_eqb_eq (a b : LeaveBalance.t) : LeaveBalance.eqb a b = true -> a = b.
Proof.
  destruct a, b. unfold LeaveBalance.eqb. cbn. intro H.
  apply andb_prop in H. destruct H as [H1 H2].
  apply Z.eqb_eq in H1, H2. subst. reflexivity.
Qed.

Lemma EmployeeBalances_eqb_eq (a b : EmployeeBalances.t) :
  EmployeeBalances.eqb a b = true -> a = b.
Proof.
  destruct a, b. unfold EmployeeBalances.eqb. cbn. intro H.
  apply andb_prop in H. destruct H as [H H3].
  apply andb_prop in H. destruct H as [H1 H2].
  apply LeaveBalance_eqb_eq in H1, H2, H3. subst. reflexivity.
Qed.

Lemma Employee_eqb_eq (a b : Employee.t) : Employee.eqb a b = true -> a = b.
Proof.
  destruct a, b. unfold Employee.eqb. cbn. intro H.
  apply andb_prop in H. destruct H as [H H5].
  apply andb_prop in H. destruct H as [H H4].
  apply andb_prop in H. destruct H as [H H3].
  apply andb_prop in H. destruct H as [H1 H2].
  apply Z.eqb_eq in H1. apply String.eqb_eq in H2, H3, H4.
  apply EmployeeBalances_eqb_eq in H5. subst. reflexivity.
Qed.

Lemma find_employee_store (i : Z) (s : Store) : snd (find_employee i s) = s.
Proof.
  destruct (find_first (has_employee_id i) (employee_db s)) eqn:E.
  - rewrite (find_employee_found _ _ _ E). reflexivity.
  - rewrite (find_employee_missing _ _ E). reflexivity.
Qed.

Lemma exec_effect (c : Call) (s : Store) : Effect c s (exec c s).
Proof.
  destruct c as [| |i|d|i d|i|i|i d|st|i|request_id u]; unfold exec.
  - apply Effect_none.
  - apply Effect_none.
  - unfold get_employee_by_id. rewrite find_employee_store. apply Effect_none.
  - exact (Effect_create_employee d s).
  - unfold update_employee, bind at 1.
    destruct (find_first (has_employee_id i) (employee_db s)) eqn:E.
    + rewrite (find_employee_found _ _ _ E). exact (Effect_update_employee i d s).
    + rewrite (find_employee_missing _ _ E). apply Effect_none.
  - unfold delete_employee, bind at 1.
    destruct (find_first (has_employee_id i) (employee_db s)) as [e|] eqn:E.
    + rewrite (find_employee_found _ _ _ E). unfold bind, gets.
      destruct (list_remove Employee.eqb e (employee_db s)) as [db'|] eqn:R.
      * destruct (list_remove_split _ _ _ _ R) as (l1 & y & l2 & Hl & -> & Hy).
        apply Employee_eqb_eq in Hy. subst y.
        destruct (find_first_In _ _ _ E) as [_ Hid]. apply has_employee_id_true in Hid.
        exact (Effect_delete_employee i s e l1 l2 Hid Hl).
      * apply Effect_none.
    + rewrite (find_employee_missing _ _ E). apply Effect_none.
  - unfold get_employee_leave_balance, bind.
    destruct (find_employee i s) as [[e|x] s'] eqn:E;
      pose proof (find_employee_store i s) as H; rewrite E in H; cbn in H; subst s';
      apply Effect_none.
  - destruct (find_first (has_employee_id i) (employee_db s)) as [e|] eqn:E.
    + rewrite (create_leave_found _ _ _ _ E). cbv zeta.
      destruct (_ <=? 0); [apply Effect_none|].
      destruct (_ <? _); [apply Effect_none|].
      exact (Effect_create_leave i d s e E).
    + rewrite (create_leave_missing _ _ _ E). apply Effect_none.
  - destruct st; apply Effect_none.
  - unfold get_employee_leave_requests, bind.
    destruct (find_employee i s) as [[e|x] s'] eqn:E;
      pose proof (find_employee_store i s) as H; rewrite E in H; cbn in H; subst s';
      apply Effect_none.
  - destruct (find_first (has_request_id request_id) (leave_db s)) as [req|] eqn:Hr;
      [|rewrite (update_status_no_request _ _ _ Hr); apply Effect_none].
    destruct (find_first (has_employee_id (LeaveRequest.employee_id req)) (employee_db s))
      as [e|] eqn:He;
      [|rewrite (update_status_no_employee _ _ _ _ Hr He); apply Effect_none].
    rewrite (update_status_found _ _ _ _ _ Hr He). cbv zeta.
    destruct (find_first_In _ _ _ He) as [_ Hid]. apply has_employee_id_true in Hid.
    rewrite Hid. destruct u as [new_status]. cbn [UpdateLeaveStatus.status].
    destruct (LeaveStatus_eqb new_status APPROVED) eqn:En;
      destruct (LeaveStatus_eqb (LeaveRequest.status req) APPROVED) eqn:Eo;
      cbn [negb andb].
    + apply LeaveStatus_eqb_eq in En, Eo.
      apply (Effect_restatus request_id new_status s req Hr). tauto.
    + apply LeaveStatus_eqb_eq in En. apply LeaveStatus_eqb_neq in Eo. subst new_status.
      destruct (_ <? _) eqn:Er; [apply Effect_none|].
      apply Z.ltb_ge in Er.
      exact (Effect_approve request_id s req e Hr He Eo Er).
    + apply LeaveStatus_eqb_neq in En. apply LeaveStatus_eqb_eq in Eo.
      exact (Effect_leave_approved request_id new_status s req e Hr He Eo En).
    + apply LeaveStatus_eqb_neq in En, Eo.
      apply (Effect_restatus request_id new_status s req Hr). tauto.
Qed.

Lemma Employee_eqb_refl (e : Employee.t) : Employee.eqb e e = true.
Proof.
  unfold Employee.eqb, EmployeeBalances.eqb, LeaveBalance.eqb.
  rewrite !Z.eqb_refl, !String.eqb_refl. reflexivity.
Qed.

(** [delete_employee] on an id that is present returns, with the found
    object taken out of the list: the [ValueError] of [remove] cannot
    occur, since the object was just found in that list. *)
Lemma delete_employee_found (i : Z) (s : Store) (e : Employee.t) :
  find_first (has_employee_id i) (employee_db s) = Some e ->
  exists l1 l2,
    employee_db s = (l1 ++ e :: l2)%list
    /\ delete_employee i s = (Return tt, mkStore (l1 ++ l2)%list (leave_db s)).
Proof.
  intro He. unfold delete_employee, bind at 1.
  rewrite (find_employee_found _ _ _ He). unfold bind, gets.
  destruct (find_first_In _ _ _ He) as [Hin _].
  destruct (list_remove_present Employee.eqb e (employee_db s) Employee_eqb_refl Hin)
    as [db' R].
  rewrite R. destruct (list_remove_split _ _ _ _ R) as (l1 & y & l2 & Hl & -> & Hy).
  apply Employee_eqb_eq in Hy. subst y. exists l1, l2. split; [exact Hl | reflexivity].
Qed.

(** An invariant of every call is an invariant of every sequence of calls. *)
Lemma run_invariant (P : Store -> Prop) :
  (forall c s, P s -> P (exec c s)) ->
  forall calls s, P s -> P (run calls s).
Proof.
  intros Hstep calls. induction calls as [|c calls IH]; intros s Hs; [exact Hs|].
  cbn. apply IH. apply Hstep. exact Hs.
Qed.

Lemma run_invariant_guarded (P : Store -> Prop) (ok : Call -> Store -> bool) :
  (forall c s, ok c s = true -> P s -> P (exec c s)) ->
  forall calls s, every_call ok calls s = true -> P s -> P (run calls s).
Proof.
  intros Hstep calls. induction calls as [|c calls IH]; intros s Hok Hs; [exact Hs|].
  cbn in Hok. apply andb_prop in Hok. destruct Hok as [Hc Hrest].
  cbn. apply IH; [exact Hrest|]. apply Hstep; assumption.
Qed.

(** ** Fresh ids *)

Lemma fold_max_bounds (rest : list Z) (x : Z) :
  x <= fold_left Z.max rest x
  /\ Forall (fun i => i <= fold_left Z.max rest x) rest
  /\ In (fold_left Z.max rest x) (x :: rest).
Proof.
  revert x. induction rest as [|y rest IH]; intro x; cbn [fold_left].
  - split; [lia|]. split; [constructor | left; reflexivity].
  - destruct (IH (Z.max x y)) as (H1 & H2 & H3). split; [lia|]. split.
    + constructor; [lia | exact H2].
    + destruct H3 as [H3|H3]; [|right; right; exact H3].
      destruct (Z.max_spec x y) as [[_ Hm]|[_ Hm]]; rewrite Hm in *.
      * right; left; exact H3.
      * left; exact H3.
Qed.

Lemma next_id_fresh (ids : list Z) : Forall (fun i => i < next_id ids) ids.
Proof.
  destruct ids as [|x rest]; [constructor|].
  unfold next_id. destruct (fold_max_bounds rest x) as (H1 & H2 & _).
  constructor; [lia|]. eapply Forall_impl; [|exact H2]. cbn. intros; lia.
Qed.

Lemma next_id_not_in (ids : list Z) : ~ In (next_id ids) ids.
Proof.
  intro H. pose proof (next_id_fresh ids) as F. rewrite Forall_forall in F.
  specialize (F _ H). lia.
Qed.

Lemma next_id_of_max (m : Z) (ids : list Z) : is_max m ids -> next_id ids = m + 1.
Proof.
  intros [Hin Hle]. destruct ids as [|x rest]; [contradiction|].
  unfold next_id. destruct (fold_max_bounds rest x) as (H1 & H2 & H3).
  rewrite Forall_forall in Hle. specialize (Hle _ H3).
  assert (m <= fold_left Z.max rest x).
  { destruct Hin as [<-|Hin]; [exact H1|]. rewrite Forall_forall in H2. auto. }
  lia.
Qed.

Lemma NoDup_snoc_fresh (ids : list Z) : NoDup ids -> NoDup (ids ++ [next_id ids])%list.
Proof.
  intro H. apply NoDup_app; [exact H | repeat constructor; intros [] |].
  intros x Hx [<-|[]]. exact (next_id_not_in ids Hx).
Qed.

(** ** Ids across a call *)

Lemma Effect_employee_ids (c : Call) (s s' : Store) :
  Effect c s s' ->
  employee_ids s' = employee_ids s
  \/ (exists d, c = Call_create_employee d
                /\ employee_ids s' = (employee_ids s ++ [next_id (employee_ids s)])%list)
  \/ (exists i l1 l2, c = Call_delete_employee i
                      /\ employee_ids s = (l1 ++ i :: l2)%list
                      /\ employee_ids s' = (l1 ++ l2)%list).
Proof.
  intro H. destruct H; unfold employee_ids; cbn [employee_db]; auto.
  - right; left. exists d. split; [reflexivity|]. rewrite map_app. reflexivity.
  - left. apply mutate_first_map. reflexivity.
  - right; right. exists i, (map Employee.id l1), (map Employee.id l2).
    split; [reflexivity|]. rewrite H0, !map_app. cbn [map]. rewrite H. auto.
  - left. apply mutate_first_map. reflexivity.
  - left. apply mutate_first_map. reflexivity.
Qed.

Lemma Effect_request_ids (c : Call) (s s' : Store) :
  Effect c s s' ->
  request_ids s' = request_ids s
  \/ request_ids s' = (request_ids s ++ [next_id (request_ids s)])%list.
Proof.
  intro H. destruct H; unfold request_ids; cbn [leave_db]; auto.
  - right. rewrite map_app. reflexivity.
  - left. apply mutate_first_map. reflexivity.
  - left. apply mutate_first_map. reflexivity.
  - left. apply mutate_first_map. reflexivity.
Qed.

Lemma exec_ids_distinct (c : Call) (s : Store) : ids_distinct s -> ids_distinct (exec c s).
Proof.
  intros [He Hr]. pose proof (exec_effect c s) as E. split.
  - destruct (Effect_employee_ids _ _ _ E) as [->|[(d & _ & ->)|(i & l1 & l2 & _ & Hs & ->)]].
    + exact He.
    + apply NoDup_snoc_fresh. exact He.
    + rewrite Hs in He. exact (NoDup_remove_1 _ _ _ He).
  - destruct (Effect_request_ids _ _ _ E) as [->| ->].
    + exact Hr.
    + apply NoDup_snoc_fresh. exact Hr.
Qed.

Lemma initial_ids_distinct : ids_distinct initial_store.
Proof.
  split; cbn.
  - repeat constructor; cbn; intuition discriminate.
  - repeat constructor; cbn; intuition.
Qed.

(** With distinct ids, a stored object is the one its id designates. *)
Lemma stored_request_found (db : list LeaveRequest.t) (req : LeaveRequest.t) :
  NoDup (map LeaveRequest.id db) -> In req db ->
  find_first (has_request_id (LeaveRequest.id req)) db = Some req.
Proof.
  induction db as [|r db IH]; cbn; [contradiction|].
  intros Hnd [->|Hin].
  - unfold has_request_id. rewrite Z.eqb_refl. reflexivity.
  - inversion Hnd as [|? ? Hnot Hnd']; subst.
    destruct (has_request_id (LeaveRequest.id req) r) eqn:E; [|apply IH; assumption].
    exfalso. apply Hnot. unfold has_request_id in E. apply Z.eqb_eq in E.
    rewrite E. apply in_map. exact Hin.
Qed.

Lemma stored_employee_found (db : list Employee.t) (e : Employee.t) :
  NoDup (map Employee.id db) -> In e db ->
  find_first (has_employee_id (Employee.id e)) db = Some e.
Proof.
  induction db as [|x db IH]; cbn; [contradiction|].
  intros Hnd [->|Hin].
  - unfold has_employee_id. rewrite Z.eqb_refl. reflexivity.
  - inversion Hnd as [|? ? Hnot Hnd']; subst.
    destruct (has_employee_id (Employee.id e) x) eqn:E; [|apply IH; assumption].
    exfalso. apply Hnot. unfold has_employee_id in E. apply Z.eqb_eq in E.
    rewrite E. apply in_map. exact Hin.
Qed.

(** C10. In every store reached from the initial one by any sequence of
    API calls, the ids of the employees of [employee_db] are pairwise
    distinct and the ids of the requests of [leave_db] are pairwise
    distinct. *)
Theorem reachable_ids_distinct (calls : list Call) :
  NoDup (map Employee.id (employee_db (run calls initial_store)))
  /\ NoDup (map LeaveRequest.id (leave_db (run calls initial_store))).
Proof.
  exact (run_invariant ids_distinct exec_ids_distinct calls initial_store
           initial_ids_distinct).
Qed.

(** ** Employee ids handed out over time *)

Lemma forallb_false {A} (f : A -> bool) (l : list A) :
  forallb f l = false -> exists x, In x l /\ f x = false.
Proof.
  induction l as [|y l IH]; cbn; [discriminate|].
  destruct (f y) eqn:E; cbn.
  - intro H. destruct (IH H) as (x & Hx & Hf). eauto.
  - intros _. eauto.
Qed.

Lemma exec_dominated (c : Call) (s : Store) :
  spares_greatest c s = true ->
  dominated (employee_ids s) (employee_ids (exec c s)).
Proof.
  intros Hok j Hj.
  destruct (Effect_employee_ids _ _ _ (exec_effect c s))
    as [->|[(d & _ & ->)|(i & l1 & l2 & -> & Hs & ->)]].
  - exists j. split; [exact Hj | lia].
  - exists j. split; [apply in_or_app; left; exact Hj | lia].
  - cbn in Hok. fold (employee_ids s) in Hok. apply negb_true_iff in Hok.
    assert (Hin : existsb (Z.eqb i) (employee_ids s) = true).
    { apply existsb_exists. exists i. split; [|apply Z.eqb_refl].
      rewrite Hs. apply in_elt. }
    rewrite Hin in Hok. cbn in Hok.
    destruct (forallb_false _ _ Hok) as (k & Hk & Hki). apply Z.leb_gt in Hki.
    rewrite Hs in Hj, Hk.
    apply in_app_or in Hj. apply in_app_or in Hk.
    assert (Hk' : In k (l1 ++ l2)%list).
    { apply in_or_app. destruct Hk as [Hk|[Hk|Hk]]; [left; exact Hk | lia | right; exact Hk]. }
    destruct Hj as [Hj|[Hj|Hj]].
    + exists j. split; [apply in_or_app; left; exact Hj | lia].
    + exists k. split; [exact Hk' | lia].
    + exists j. split; [apply in_or_app; right; exact Hj | lia].
Qed.

Lemma above_dominated (l l' : list Z) (i : Z) :
  dominated l l' -> Forall (fun j => j < i) l' -> Forall (fun j => j < i) l.
Proof.
  intros Hd Hl'. rewrite Forall_forall in *. intros j Hj.
  destruct (Hd j Hj) as (j' & Hj' & Hle). specialize (Hl' j' Hj'). lia.
Qed.

Lemma assigned_ids_increasing (calls : list Call) (s : Store) :
  spares_greatest_id calls s = true ->
  increasing (assigned_ids calls s)
  /\ Forall (fun i => Forall (fun j => j < i) (employee_ids s)) (assigned_ids calls s).
Proof.
  revert s. induction calls as [|c calls IH]; intros s Hok; [cbn; auto|].
  unfold spares_greatest_id in Hok. cbn [every_call] in Hok.
  apply andb_prop in Hok. destruct Hok as [Hc Hrest].
  destruct (IH (exec c s) Hrest) as [Hinc Habove].
  pose proof (exec_dominated c s Hc) as Hdom.
  assert (Hlater : Forall (fun i => Forall (fun j => j < i) (employee_ids s))
                          (assigned_ids calls (exec c s))).
  { eapply Forall_impl; [|exact Habove]. cbn. intros i Hi.
    exact (above_dominated _ _ _ Hdom Hi). }
  cbn [assigned_ids].
  destruct c; cbn [app]; try (split; assumption).
  cbn [fst create_employee bind gets modify ret Employee.id]. cbn [app].
  fold (employee_ids s). split.
  - cbn [increasing]. split; [|exact Hinc].
    eapply Forall_impl; [|exact Habove]. cbn. intros i Hi.
    rewrite Forall_forall in Hi. apply Hi.
    unfold employee_ids. cbn [exec snd create_employee bind gets modify ret employee_db].
    rewrite map_app. apply in_or_app. right. left. reflexivity.
  - constructor; [apply next_id_fresh | exact Hlater].
Qed.

(** C2. [create_employee] always returns, and the id it assigns is 1 when
    the employee list is empty and the greatest id of the list plus one
    otherwise.  Over any sequence of API calls in which [delete_employee]
    is never called on the greatest id present at that moment, the ids so
    assigned are strictly increasing, hence none is assigned twice, and
    each exceeds every id that was in the list at the start. *)
Theorem create_employee_ids_increase (calls : list Call) (s : Store) :
  spares_greatest_id calls s = true ->
  (forall (d : CreateEmployee.t) (s0 : Store),
      exists e,
        create_employee d s0
        = (Return e, mkStore (employee_db s0 ++ [e])%list (leave_db s0))
        /\ (employee_db s0 = [] -> Employee.id e = 1)
        /\ (forall m, is_max m (map Employee.id (employee_db s0)) -> Employee.id e = m + 1))
  /\ increasing (assigned_ids calls s)
  /\ NoDup (assigned_ids calls s)
  /\ Forall (fun i => Forall (fun j => j < i) (map Employee.id (employee_db s)))
            (assigned_ids calls s).
Proof.
  intro Hok. split.
  - intros d s0.
    exists (Employee.mk (next_id (map Employee.id (employee_db s0)))
              (CreateEmployee.name d) (CreateEmployee.position d)
              (CreateEmployee.department d) EmployeeBalances.default).
    split; [reflexivity|]. cbn [Employee.id]. split.
    + intros ->. reflexivity.
    + intros m Hm. apply next_id_of_max. exact Hm.
  - destruct (assigned_ids_increasing calls s Hok) as [Hinc Habove].
    split; [exact Hinc|]. split; [|exact Habove].
    clear Habove. induction (assigned_ids calls s) as [|x l IHl]; [constructor|].
    destruct Hinc as [Hx Hl]. constructor; [|apply IHl; exact Hl].
    intro Hin. rewrite Forall_forall in Hx. specialize (Hx _ Hin). lia.
Qed.

Lemma create_employee_ids_increase_witness :
  increasing (assigned_ids [Call_create_employee carol; Call_delete_employee 1;
                            Call_create_employee carol] initial_store).
Proof.
  destruct (create_employee_ids_increase
              [Call_create_employee carol; Call_delete_employee 1;
               Call_create_employee carol] initial_store eq_refl) as (_ & H & _).
  exact H.
Defined.

(** Against C2 as stated: create an employee (id 3), delete employee 3,
    create again: id 3 is assigned a second time, so the assigned ids are
    not strictly increasing and an id is reused after deletion. *)
Lemma employee_id_reassigned_after_deletion :
  assigned_ids [Call_create_employee carol; Call_delete_employee 3;
                Call_create_employee carol] initial_store = [3; 3]
  /\ find_first (has_employee_id 3)
       (employee_db (run [Call_create_employee carol; Call_delete_employee 3]
                         initial_store)) = None
  /\ ~ increasing (assigned_ids [Call_create_employee carol; Call_delete_employee 3;
                                 Call_create_employee carol] initial_store).
Proof.
  split; [reflexivity|]. split; [reflexivity|].
  intros [H _]. inversion H as [|? ? Hlt _]. revert Hlt. vm_compute. discriminate.
Qed.

(** ** Balances across a call *)

Lemma LeaveType_eq_or_neq (a b : LeaveType) : a = b \/ a <> b.
Proof. destruct a, b; (left; reflexivity) || (right; discriminate). Qed.

Lemma default_within_allocation (leave_type : LeaveType) :
  let b := EmployeeBalances.getattr EmployeeBalances.default leave_type in
  LeaveBalance.used b = 0 /\ 0 <= LeaveBalance.allocated b.
Proof. destruct leave_type; cbn; lia. Qed.

Lemma duration_nonneg (req : LeaveRequest.t) : 0 <= duration req.
Proof. apply calculate_business_days_nonneg. Qed.

Lemma duration_set_status (st : LeaveStatus) (req : LeaveRequest.t) :
  duration (LeaveRequest.set_status st req) = duration req.
Proof. reflexivity. Qed.

Lemma exec_within_allocation (c : Call) (s : Store) :
  within_allocation s -> within_allocation (exec c s).
Proof.
  intro Hs. pose proof (exec_effect c s) as E.
  destruct E as [c s|d s|i d s|i s e l1 l2 Hid Hl|i d s e He
                |rid s req e Hr He Hst Hrem|rid new_status s req e Hr He Hst Hnew
                |rid new_status s req Hr Hiff]; try exact Hs;
    intros e' leave_type Hin; cbn [employee_db] in Hin.
  - apply in_app_or in Hin. destruct Hin as [Hin|[<-|[]]]; [apply Hs; exact Hin|].
    unfold balance. cbn [Employee.leave_balances].
    destruct (default_within_allocation leave_type) as [H0 Ha]. cbv zeta in H0, Ha. lia.
  - destruct (mutate_first_In _ _ _ _ Hin) as [Hold|(x & Hx & ->)]; [apply Hs; exact Hold|].
    destruct (find_first_In _ _ _ Hx) as [Hxin _]. exact (Hs x leave_type Hxin).
  - apply Hs. rewrite Hl. apply in_app_or in Hin. apply in_or_app.
    destruct Hin; [left | right; right]; assumption.
  - destruct (mutate_first_In _ _ _ _ Hin) as [Hold|(x & Hx & ->)]; [apply Hs; exact Hold|].
    rewrite He in Hx. injection Hx as <-.
    destruct (find_first_In _ _ _ He) as [Hein _]. pose proof (Hs e leave_type Hein) as Hb.
    destruct (LeaveType_eq_or_neq leave_type (LeaveRequest.leave_type req)) as [->|Hne].
    + rewrite balance_add_used_same. cbn [LeaveBalance.used LeaveBalance.allocated].
      unfold LeaveBalance.remaining in Hrem. lia.
    + rewrite balance_add_used_other by exact Hne. exact Hb.
  - destruct (mutate_first_In _ _ _ _ Hin) as [Hold|(x & Hx & ->)]; [apply Hs; exact Hold|].
    rewrite He in Hx. injection Hx as <-.
    destruct (find_first_In _ _ _ He) as [Hein _]. pose proof (Hs e leave_type Hein) as Hb.
    pose proof (duration_nonneg req) as Hd.
    destruct (LeaveType_eq_or_neq leave_type (LeaveRequest.leave_type req)) as [->|Hne].
    + rewrite balance_add_used_same. cbn [LeaveBalance.used LeaveBalance.allocated]. lia.
    + rewrite balance_add_used_other by exact Hne. exact Hb.
Qed.

Lemma initial_within_allocation : within_allocation initial_store.
Proof.
  intros e leave_type [<-|[<-|[]]]; destruct leave_type; cbn; lia.
Qed.

(** ** The ledger and the approved requests *)

Lemma sum_cons (x : Z) (l : list Z) : sum (x :: l) = x + sum l.
Proof. reflexivity. Qed.

Lemma approved_days_app (i : Z) (leave_type : LeaveType) (db db' : list LeaveRequest.t) :
  approved_days i leave_type (db ++ db')
  = approved_days i leave_type db + approved_days i leave_type db'.
Proof.
  unfold approved_days. induction db as [|r db IH]; [reflexivity|].
  cbn [app map]. rewrite !sum_cons, IH. lia.
Qed.

Lemma approved_days_mutate (i : Z) (leave_type : LeaveType) (p : LeaveRequest.t -> bool)
  (f : LeaveRequest.t -> LeaveRequest.t) (db : list LeaveRequest.t) (req : LeaveRequest.t) :
  find_first p db = Some req ->
  approved_days i leave_type (mutate_first p f db)
  = approved_days i leave_type db - charge i leave_type req + charge i leave_type (f req).
Proof.
  unfold approved_days. induction db as [|r db IH]; cbn [find_first mutate_first];
    [discriminate|].
  destruct (p r) eqn:E.
  - intros [= ->]. cbn [map]. rewrite !sum_cons. lia.
  - intro H. cbn [map]. rewrite !sum_cons, (IH H). lia.
Qed.

Lemma charge_not_approved (i : Z) (leave_type : LeaveType) (req : LeaveRequest.t) :
  LeaveRequest.status req <> APPROVED -> charge i leave_type req = 0.
Proof.
  intro H. apply LeaveStatus_eqb_neq in H. unfold charge. rewrite H.
  rewrite andb_false_r. reflexivity.
Qed.

Lemma charge_other_employee (i : Z) (leave_type : LeaveType) (req : LeaveRequest.t) :
  LeaveRequest.employee_id req <> i -> charge i leave_type req = 0.
Proof.
  intro H. apply Z.eqb_neq in H. unfold charge. rewrite H. reflexivity.
Qed.

Lemma charge_other_type (i : Z) (leave_type : LeaveType) (req : LeaveRequest.t) :
  leave_type <> LeaveRequest.leave_type req -> charge i leave_type req = 0.
Proof.
  intro H. unfold charge.
  destruct (LeaveType_eqb (LeaveRequest.leave_type req) leave_type) eqn:E.
  - apply LeaveType_eqb_eq in E. congruence.
  - rewrite andb_false_r. reflexivity.
Qed.

Lemma charge_approved (req : LeaveRequest.t) :
  LeaveRequest.status req = APPROVED ->
  charge (LeaveRequest.employee_id req) (LeaveRequest.leave_type req) req = duration req.
Proof.
  intro H. unfold charge. rewrite H, Z.eqb_refl.
  destruct (LeaveRequest.leave_type req); reflexivity.
Qed.

Lemma charge_set_status (i : Z) (leave_type : LeaveType) (st : LeaveStatus)
  (req : LeaveRequest.t) :
  (LeaveRequest.status req = APPROVED <-> st = APPROVED) ->
  charge i leave_type (LeaveRequest.set_status st req) = charge i leave_type req.
Proof.
  intro H. unfold charge, duration. cbn.
  destruct (LeaveStatus_eqb st APPROVED) eqn:E1;
    destruct (LeaveStatus_eqb (LeaveRequest.status req) APPROVED) eqn:E2; try reflexivity.
  - apply LeaveStatus_eqb_eq in E1. apply LeaveStatus_eqb_neq in E2. tauto.
  - apply LeaveStatus_eqb_neq in E1. apply LeaveStatus_eqb_eq in E2. tauto.
Qed.

Lemma approved_days_none (i : Z) (leave_type : LeaveType) (db : list LeaveRequest.t) :
  (forall req, In req db -> LeaveRequest.status req = APPROVED ->
               LeaveRequest.employee_id req <> i) ->
  approved_days i leave_type db = 0.
Proof.
  unfold approved_days. induction db as [|r db IH]; [reflexivity|].
  intro H. cbn [map]. rewrite sum_cons.
  rewrite IH by (intros q Hq Hst; apply H; [right; exact Hq | exact Hst]).
  assert (Hr : In r (r :: db)) by (left; reflexivity).
  destruct (LeaveStatus_eqb (LeaveRequest.status r) APPROVED) eqn:E.
  - apply LeaveStatus_eqb_eq in E. rewrite charge_other_employee; [lia|].
    apply H; assumption.
  - apply LeaveStatus_eqb_neq in E. rewrite charge_not_approved by exact E. lia.
Qed.

Lemma has_approved_leave_false (i : Z) (db : list LeaveRequest.t) :
  has_approved_leave i db = false ->
  forall req, In req db -> LeaveRequest.status req = APPROVED ->
              LeaveRequest.employee_id req <> i.
Proof.
  unfold has_approved_leave. intros H req Hin Hst Heq.
  assert (existsb (fun r => (LeaveRequest.employee_id r =? i)
                            && LeaveStatus_eqb (LeaveRequest.status r) APPROVED) db = true).
  { apply existsb_exists. exists req. split; [exact Hin|].
    rewrite Hst, Heq, Z.eqb_refl. reflexivity. }
  congruence.
Qed.

(** With distinct ids, mutation through [find_employee] touches the one
    object that has the id. *)
Lemma mutate_employee_In (i : Z) (f : Employee.t -> Employee.t) (db : list Employee.t)
  (e e' : Employee.t) :
  NoDup (map Employee.id db) ->
  find_first (has_employee_id i) db = Some e ->
  In e' (mutate_first (has_employee_id i) f db) ->
  e' = f e \/ (In e' db /\ Employee.id e' <> i).
Proof.
  induction db as [|x db IH]; cbn; [discriminate|].
  intros Hnd. inversion Hnd as [|? ? Hnot Hnd']; subst.
  destruct (has_employee_id i x) eqn:E.
  - intros [= ->] [<-|Hin]; [left; reflexivity|].
    right. split; [right; exact Hin|].
    apply has_employee_id_true in E. intro Heq. apply Hnot.
    rewrite E, <- Heq. apply in_map. exact Hin.
  - intros He [<-|Hin].
    + right. split; [left; reflexivity|].
      unfold has_employee_id in E. apply Z.eqb_neq in E. exact E.
    + destruct (IH Hnd' He Hin) as [->|[H1 H2]]; [left; reflexivity|].
      right. split; [right; exact H1 | exact H2].
Qed.

Lemma exec_ledger_covers_approved (c : Call) (s : Store) :
  assigns_unclaimed_id c s = true ->
  ledger_covers_approved s -> ledger_covers_approved (exec c s).
Proof.
  intros Hok Hs. pose proof (exec_effect c s) as E.
  destruct E as [c s|d s|i d s|i s e l1 l2 Hid Hl|i d s e He
                |rid s req e Hr He Hst Hrem|rid new_status s req e Hr He Hst Hnew
                |rid new_status s req Hr Hiff]; try exact Hs;
    destruct Hs as (Hnd & Hcov); unfold ledger_covers_approved, employee_ids in *;
    cbn [employee_db leave_db].
  - (* create_employee: the guard says no approved request names the new id *)
    cbn in Hok. apply negb_true_iff in Hok.
    pose proof (has_approved_leave_false _ _ Hok) as Hfree.
    split.
    + rewrite map_app. apply NoDup_snoc_fresh. exact Hnd.
    + intros e' leave_type Hin. apply in_app_or in Hin.
      destruct Hin as [Hin|[<-|[]]]; [auto|]. cbn [Employee.id].
      rewrite approved_days_none by exact Hfree.
      unfold balance. cbn [Employee.leave_balances].
      destruct (default_within_allocation leave_type) as [H0 _]. cbv zeta in H0. lia.
  - (* update_employee *)
    rewrite (mutate_first_map Employee.id) by reflexivity.
    split; [exact Hnd|].
    intros e' leave_type Hin.
    destruct (mutate_first_In _ _ _ _ Hin) as [Hold|(x & Hx & ->)]; [auto|].
    destruct (find_first_In _ _ _ Hx) as [Hxin _]. exact (Hcov x leave_type Hxin).
  - (* delete_employee: whoever is left keeps balance and requests *)
    rewrite Hl in Hnd, Hcov. rewrite map_app in Hnd. cbn [map] in Hnd.
    split.
    + rewrite map_app. exact (NoDup_remove_1 _ _ _ Hnd).
    + intros e' leave_type Hin. apply Hcov.
      apply in_app_or in Hin. apply in_or_app.
      destruct Hin; [left | right; right]; assumption.
  - (* create_leave_request *)
    split; [exact Hnd|].
    intros e' leave_type Hin. rewrite approved_days_app.
    unfold approved_days at 2. cbn [map]. rewrite sum_cons.
    rewrite charge_not_approved by (cbn; discriminate).
    specialize (Hcov e' leave_type Hin). cbn [map sum fold_right]. lia.
  - (* a request becomes approved *)
    destruct (find_first_In _ _ _ He) as [Hein Heid]. apply has_employee_id_true in Heid.
    rewrite (mutate_first_map Employee.id) by reflexivity.
    split; [exact Hnd|].
    intros e' leave_type Hin.
    rewrite (approved_days_mutate _ _ _ _ _ _ Hr).
    rewrite (charge_not_approved _ _ req) by exact Hst.
    destruct (mutate_employee_In _ _ _ _ _ Hnd He Hin) as [->|[Hold Hother]].
    + rewrite add_used_id, Heid. specialize (Hcov e leave_type Hein). rewrite Heid in Hcov.
      destruct (LeaveType_eq_or_neq leave_type (LeaveRequest.leave_type req)) as [->|Hne].
      * rewrite balance_add_used_same. cbn [LeaveBalance.used].
        pose proof (charge_approved (LeaveRequest.set_status APPROVED req) eq_refl) as Hc.
        cbn [LeaveRequest.set_status LeaveRequest.employee_id LeaveRequest.leave_type] in Hc.
        rewrite Hc, duration_set_status. lia.
      * rewrite balance_add_used_other by exact Hne.
        rewrite (charge_other_type _ _ (LeaveRequest.set_status APPROVED req))
          by exact Hne. lia.
    + rewrite (charge_other_employee _ _ (LeaveRequest.set_status APPROVED req))
        by (cbn; congruence).
      specialize (Hcov e' leave_type Hold). lia.
  - (* an approved request stops being approved *)
    destruct (find_first_In _ _ _ He) as [Hein Heid]. apply has_employee_id_true in Heid.
    rewrite (mutate_first_map Employee.id) by reflexivity.
    split; [exact Hnd|].
    intros e' leave_type Hin.
    rewrite (approved_days_mutate _ _ _ _ _ _ Hr).
    rewrite (charge_not_approved _ _ (LeaveRequest.set_status new_status req))
      by exact Hnew.
    destruct (mutate_employee_In _ _ _ _ _ Hnd He Hin) as [->|[Hold Hother]].
    + rewrite add_used_id, Heid. specialize (Hcov e leave_type Hein). rewrite Heid in Hcov.
      destruct (LeaveType_eq_or_neq leave_type (LeaveRequest.leave_type req)) as [->|Hne].
      * rewrite balance_add_used_same. cbn [LeaveBalance.used].
        rewrite (charge_approved req Hst). lia.
      * rewrite balance_add_used_other by exact Hne.
        rewrite (charge_other_type _ _ req) by exact Hne. lia.
    + rewrite (charge_other_employee _ _ req) by congruence.
      specialize (Hcov e' leave_type Hold). lia.
  - (* a status change that neither enters nor leaves approved *)
    split; [exact Hnd|].
    intros e' leave_type Hin.
    rewrite (approved_days_mutate _ _ _ _ _ _ Hr).
    rewrite (charge_set_status _ _ _ _ Hiff).
    specialize (Hcov e' leave_type Hin). lia.
Qed.

Lemma initial_ledger_covers_approved : ledger_covers_approved initial_store.
Proof.
  split.
  - cbn. repeat constructor; cbn; intuition discriminate.
  - intros e leave_type [<-|[<-|[]]]; destruct leave_type; vm_compute; discriminate.
Qed.

Lemma approved_days_nonneg (i : Z) (leave_type : LeaveType) (db : list LeaveRequest.t) :
  0 <= approved_days i leave_type db.
Proof.
  unfold approved_days. induction db as [|r db IH]; [cbn; lia|].
  cbn [map]. rewrite sum_cons.
  assert (0 <= charge i leave_type r).
  { unfold charge. destruct (_ && _); [apply duration_nonneg | lia]. }
  lia.
Qed.

(** ** The balance invariant *)

(** C1. In every store reached from the initial one by any sequence of
    API calls, every balance of every employee has [used <= allocated].
    When, in addition, no [create_employee] of the sequence handed out an
    id that an approved leave request named at that moment, every balance
    also has [0 <= used]; deletions are unrestricted. *)
Theorem reachable_balances_bounded
  (calls : list Call) (e : Employee.t) (leave_type : LeaveType) :
  In e (employee_db (run calls initial_store)) ->
  LeaveBalance.used (balance e leave_type) <= LeaveBalance.allocated (balance e leave_type)
  /\ (assigns_unclaimed_ids calls initial_store = true ->
      0 <= LeaveBalance.used (balance e leave_type)).
Proof.
  intro Hin. split.
  - exact (run_invariant within_allocation exec_within_allocation calls initial_store
             initial_within_allocation e leave_type Hin).
  - intro Hok.
    destruct (run_invariant_guarded ledger_covers_approved assigns_unclaimed_id
                exec_ledger_covers_approved calls initial_store Hok
                initial_ledger_covers_approved) as (_ & Hcov).
    pose proof (Hcov e leave_type Hin) as H.
    pose proof (approved_days_nonneg (Employee.id e) leave_type
                  (leave_db (run calls initial_store))) as H0.
    lia.
Qed.

Lemma reachable_balances_bounded_witness :
  let alice :=
    Employee.mk 1 "Alice Smith" "Software Engineer" "Technology"
      (EmployeeBalances.mk (LeaveBalance.mk 15 0) (LeaveBalance.mk 10 0)
         (LeaveBalance.mk 5 5)) in
  LeaveBalance.used (balance alice PERSONAL) <= LeaveBalance.allocated (balance alice PERSONAL)
  /\ 0 <= LeaveBalance.used (balance alice PERSONAL).
Proof.
  intro alice.
  destruct (reachable_balances_bounded
              [Call_create_employee carol; Call_delete_employee 2;
               Call_create_leave_request 1 personal_week;
               Call_update_leave_request_status 2 (set_to APPROVED)]
              alice PERSONAL (or_introl eq_refl)) as [Hup Hlow].
  split; [exact Hup | exact (Hlow eq_refl)].
Defined.

(** Against C1 as stated: delete Bob (employee 2), whose request 1 is
    approved; create an employee, who gets id 2 again with fresh balances;
    reject request 1.  The three days are taken back from the newcomer,
    whose vacation balance ends with [used = -3]. *)
Lemma used_negative_after_id_reuse :
  exists e,
    In e (employee_db (run [Call_delete_employee 2; Call_create_employee carol;
                            Call_update_leave_request_status 1 (set_to REJECTED)]
                           initial_store))
    /\ LeaveBalance.used (balance e VACATION) = -3
    /\ ~ (0 <= LeaveBalance.used (balance e VACATION)).
Proof.
  exists (Employee.mk 2 "Carol Diaz" "Analyst" "Finance"
            (EmployeeBalances.mk (LeaveBalance.mk 15 (-3)) (LeaveBalance.mk 10 0)
               (LeaveBalance.mk 5 0))).
  split; [right; left; reflexivity|]. split; [reflexivity|].
  cbn. lia.
Qed.

(** * Further properties of the endpoints *)

(** ** More on business days *)

Lemma weekday_next (d : date) : weekday (d + 1) = (weekday d + 1) mod 7.
Proof.
  unfold weekday. replace (d + 1 + 6) with ((d + 6) + 1) by lia.
  rewrite Z.add_mod by lia. rewrite (Z.mod_small 1 7) by lia. reflexivity.
Qed.

Lemma weekday_next_week (d : date) : weekday (d + 7) = weekday d.
Proof.
  unfold weekday. replace (d + 7 + 6) with ((d + 6) + 1 * 7) by lia.
  apply Z.mod_add. lia.
Qed.

Lemma dates_from_app (first : date) (n m : nat) :
  dates_from first (n + m)
  = (dates_from first n ++ dates_from (first + Z.of_nat n) m)%list.
Proof.
  revert first. induction n as [|n IH]; intro first.
  - cbn. rewrite Z.add_0_r. reflexivity.
  - cbn [Nat.add dates_from app]. rewrite IH.
    replace (first + 1 + Z.of_nat n) with (first + Z.of_nat (S n)) by lia. reflexivity.
Qed.

Lemma business_days_as_count (start_date : date) (n : nat) :
  calculate_business_days start_date (start_date + Z.of_nat n - 1)
  = Z.of_nat (List.length (filter is_monday_to_friday (dates_from start_date n))).
Proof.
  destruct n as [|n].
  - unfold calculate_business_days. cbn [Z.of_nat].
    destruct (start_date >? start_date + 0 - 1) eqn:E; [reflexivity | lia].
  - rewrite calculate_business_days_ordered by lia.
    unfold weekdays_in_range, inclusive_range.
    replace (Z.to_nat (start_date + Z.of_nat (S n) - 1 - start_date + 1)) with (S n) by lia.
    reflexivity.
Qed.

Lemma week_has_five_weekdays (first : date) :
  List.length (filter is_monday_to_friday (dates_from first 7)) = 5%nat.
Proof.
  cbn [dates_from filter]. rewrite !is_monday_to_friday_weekday, !weekday_next.
  pose proof (weekday_bounds first) as Hb.
  assert (Hw : weekday first = 0 \/ weekday first = 1 \/ weekday first = 2
               \/ weekday first = 3 \/ weekday first = 4 \/ weekday first = 5
               \/ weekday first = 6) by lia.
  destruct Hw as [-> | [-> | [-> | [-> | [-> | [-> | ->]]]]]]; reflexivity.
Qed.

(** X1. The count is never negative and never exceeds the number of days
    of the inclusive range; for a single day it is 1 on Monday to Friday
    and 0 on Saturday and Sunday. *)
Theorem calculate_business_days_bounds (start_date end_date : date) :
  0 <= calculate_business_days start_date end_date <= Z.max 0 (end_date - start_date + 1)
  /\ calculate_business_days start_date start_date
     = if weekday start_date <? 5 then 1 else 0.
Proof.
  split.
  - split; [apply calculate_business_days_nonneg|].
    unfold calculate_business_days.
    destruct (start_date >? end_date) eqn:E; [lia|].
    rewrite sum_ones_length.
    pose proof (Zle_0_nat
                  (List.length
                     (filter (fun i => weekday (start_date + i) >=? 5)
                        (range (end_date - start_date + 1))))). lia.
  - pose proof (business_days_as_count start_date 1) as H.
    replace (start_date + Z.of_nat 1 - 1) with start_date in H by lia.
    rewrite H. cbn [dates_from filter]. rewrite is_monday_to_friday_weekday.
    destruct (weekday start_date >=? 5) eqn:E1; destruct (weekday start_date <? 5) eqn:E2;
      cbn; lia.
Qed.

(** X2. Adjacent ranges add up: for [start <= middle < end], the business
    days from [start] to [end] are those from [start] to [middle] plus
    those from the day after [middle] to [end]. *)
Theorem calculate_business_days_additive (start_date middle end_date : date) :
  start_date <= middle -> middle < end_date ->
  calculate_business_days start_date end_date
  = calculate_business_days start_date middle
    + calculate_business_days (middle + 1) end_date.
Proof.
  intros H1 H2.
  pose proof (business_days_as_count start_date
                (Z.to_nat (middle - start_date + 1) + Z.to_nat (end_date - middle))) as Hall.
  pose proof (business_days_as_count start_date (Z.to_nat (middle - start_date + 1))) as Hl.
  pose proof (business_days_as_count (middle + 1) (Z.to_nat (end_date - middle))) as Hr.
  rewrite dates_from_app, filter_app, length_app in Hall.
  replace (start_date + Z.of_nat (Z.to_nat (middle - start_date + 1) + Z.to_nat (end_date - middle)) - 1)
    with end_date in Hall by lia.
  replace (start_date + Z.of_nat (Z.to_nat (middle - start_date + 1)) - 1)
    with middle in Hl by lia.
  replace (middle + 1 + Z.of_nat (Z.to_nat (end_date - middle)) - 1)
    with end_date in Hr by lia.
  replace (start_date + Z.of_nat (Z.to_nat (middle - start_date + 1)))
    with (middle + 1) in Hall by lia.
  rewrite Hall, Hl, Hr. lia.
Qed.

Lemma calculate_business_days_additive_witness :
  calculate_business_days (date_of_ymd 2025 10 20) (date_of_ymd 2025 10 31)
  = calculate_business_days (date_of_ymd 2025 10 20) (date_of_ymd 2025 10 24)
    + calculate_business_days (date_of_ymd 2025 10 24 + 1) (date_of_ymd 2025 10 31).
Proof.
  apply (calculate_business_days_additive (date_of_ymd 2025 10 20) (date_of_ymd 2025 10 24)
           (date_of_ymd 2025 10 31)); vm_compute; congruence.
Defined.

(** X3. Whatever the first day, [k] whole weeks hold exactly [5 * k]
    business days, and moving both dates of a range one week later does
    not change its count. *)
Theorem calculate_business_days_weeks (start_date end_date : date) (k : nat) :
  calculate_business_days start_date (start_date + 7 * Z.of_nat k - 1) = 5 * Z.of_nat k
  /\ calculate_business_days (start_date + 7) (end_date + 7)
     = calculate_business_days start_date end_date.
Proof.
  split.
  - replace (7 * Z.of_nat k) with (Z.of_nat (7 * k)) by lia.
    rewrite business_days_as_count.
    revert start_date. induction k as [|k IH]; intro start_date; [reflexivity|].
    replace (7 * S k)%nat with (7 + 7 * k)%nat by lia.
    rewrite dates_from_app, filter_app, length_app, week_has_five_weekdays.
    rewrite Nat2Z.inj_add, IH. lia.
  - unfold calculate_business_days.
    replace (start_date + 7 >? end_date + 7) with (start_date >? end_date)
      by (destruct (start_date >? end_date) eqn:E1;
          destruct (start_date + 7 >? end_date + 7) eqn:E2; lia).
    destruct (start_date >? end_date); [reflexivity|].
    replace (end_date + 7 - (start_date + 7)) with (end_date - start_date) by lia.
    do 3 f_equal. apply filter_ext. intro i.
    replace (start_date + 7 + i) with (start_date + i + 7) by lia.
    rewrite weekday_next_week. reflexivity.
Qed.

(** ** Looking employees up *)

Lemma find_first_app {A} (p : A -> bool) (l1 l2 : list A) :
  find_first p (l1 ++ l2) =
  match find_first p l1 with
  | Some x => Some x
  | None => find_first p l2
  end.
Proof.
  induction l1 as [|y l1 IH]; cbn; [reflexivity|].
  destruct (p y); [reflexivity | exact IH].
Qed.

Lemma find_first_absent {A} (p : A -> bool) (l : list A) :
  (forall x, In x l -> p x = false) -> find_first p l = None.
Proof.
  induction l as [|y l IH]; cbn; [reflexivity|]. intro H.
  rewrite (H y (or_introl eq_refl)). apply IH. intros x Hx. apply H. right. exact Hx.
Qed.

(** Mutating the object one predicate finds does not change what another
    predicate finds, when the two never hold of the same object. *)
Lemma find_first_mutate_other {A} (p q : A -> bool) (f : A -> A) (l : list A) :
  (forall x, p x = true -> q x = false /\ q (f x) = false) ->
  find_first q (mutate_first p f l) = find_first q l.
Proof.
  intro H. induction l as [|y l IH]; cbn; [reflexivity|].
  destruct (p y) eqn:E; cbn.
  - destruct (H y E) as [H1 H2]. rewrite H1, H2. reflexivity.
  - rewrite IH. reflexivity.
Qed.

Lemma has_employee_id_other (i j : Z) (e : Employee.t) :
  j <> i -> has_employee_id i e = true -> has_employee_id j e = false.
Proof.
  unfold has_employee_id. intros Hne Hi. apply Z.eqb_eq in Hi. apply Z.eqb_neq. lia.
Qed.

Lemma find_employee_cases (i : Z) (s : Store) :
  (exists e, find_first (has_employee_id i) (employee_db s) = Some e
             /\ find_employee i s = (Return e, s))
  \/ (find_first (has_employee_id i) (employee_db s) = None
      /\ find_employee i s = (Raise (employee_not_found i), s)).
Proof.
  destruct (find_first (has_employee_id i) (employee_db s)) as [e|] eqn:E.
  - left. exists e. split; [reflexivity | apply find_employee_found; exact E].
  - right. split; [reflexivity | apply find_employee_missing; exact E].
Qed.

Lemma bind_find_employee {B} (i : Z) (k : Employee.t -> M B) (s : Store) :
  bind (find_employee i) k s
  = match find_first (has_employee_id i) (employee_db s) with
    | Some e => k e s
    | None => (Raise (employee_not_found i), s)
    end.
Proof.
  unfold bind at 1.
  destruct (find_employee_cases i s) as [(e & -> & ->)|[-> ->]]; reflexivity.
Qed.

Lemma get_employee_by_id_eval (i : Z) (s : Store) :
  fst (get_employee_by_id i s)
  = match find_first (has_employee_id i) (employee_db s) with
    | Some e => Return e
    | None => Raise (employee_not_found i)
    end.
Proof.
  unfold get_employee_by_id.
  destruct (find_employee_cases i s) as [(e & -> & ->)|[-> ->]]; reflexivity.
Qed.

Lemma get_employee_leave_balance_eval (i : Z) (s : Store) :
  fst (get_employee_leave_balance i s)
  = match find_first (has_employee_id i) (employee_db s) with
    | Some e => Return (Employee.leave_balances e)
    | None => Raise (employee_not_found i)
    end.
Proof.
  unfold get_employee_leave_balance, bind.
  destruct (find_employee_cases i s) as [(e & -> & ->)|[-> ->]]; reflexivity.
Qed.

(** X4. [find_employee] returns an employee of the list that has the id
    when some employee has it, and raises the 404 "Employee with ID <id>
    not found" when none has; in both cases the store is as before. *)
Theorem find_employee_spec (employee_id : Z) (s : Store) :
  (In employee_id (map Employee.id (employee_db s)) ->
   exists e, find_employee employee_id s = (Return e, s)
             /\ In e (employee_db s) /\ Employee.id e = employee_id)
  /\ (~ In employee_id (map Employee.id (employee_db s)) ->
      find_employee employee_id s
      = (Raise (HTTPException 404 ("Employee with ID " ++ str employee_id ++ " not found")),
         s)).
Proof.
  split.
  - intro Hin. apply in_map_iff in Hin. destruct Hin as (x & Hx & Hin).
    destruct (find_first_exists (has_employee_id employee_id) _ x Hin) as [e He].
    { apply has_employee_id_true. exact Hx. }
    exists e. split; [apply find_employee_found; exact He|].
    destruct (find_first_In _ _ _ He) as [H1 H2]. apply has_employee_id_true in H2. auto.
  - intro Hnot. apply find_employee_missing. apply find_first_absent.
    intros x Hx. unfold has_employee_id. apply Z.eqb_neq. intro Heq.
    apply Hnot. rewrite <- Heq. apply in_map. exact Hx.
Qed.

Lemma find_employee_spec_witness :
  (exists e, find_employee 2 initial_store = (Return e, initial_store)
             /\ In e (employee_db initial_store) /\ Employee.id e = 2)
  /\ find_employee 7 initial_store
     = (Raise (HTTPException 404 "Employee with ID 7 not found"), initial_store).
Proof.
  split.
  - apply (find_employee_spec 2 initial_store). right. left. reflexivity.
  - apply (find_employee_spec 7 initial_store). cbn. intuition discriminate.
Defined.

(** ** Registering, updating and deleting employees *)

(** X5. After [create_employee], the new employee is the one its id
    designates: [get_employee_by_id] on the assigned id returns the record
    that was returned, which carries the submitted profile, and
    [get_employee_leave_balance] returns the default allocations 15, 10
    and 5 with nothing used.  Every other id designates what it did
    before, and the requests are untouched. *)
Theorem create_employee_then_get (d : CreateEmployee.t) (s : Store) :
  exists e,
    let s' := snd (create_employee d s) in
    fst (create_employee d s) = Return e
    /\ Employee.name e = CreateEmployee.name d
    /\ Employee.position e = CreateEmployee.position d
    /\ Employee.department e = CreateEmployee.department d
    /\ get_employee_by_id (Employee.id e) s' = (Return e, s')
    /\ get_employee_leave_balance (Employee.id e) s'
       = (Return (EmployeeBalances.mk (LeaveBalance.mk 15 0) (LeaveBalance.mk 10 0)
                                      (LeaveBalance.mk 5 0)), s')
    /\ (forall j, j <> Employee.id e ->
                  fst (get_employee_by_id j s') = fst (get_employee_by_id j s))
    /\ leave_db s' = leave_db s.
Proof.
  set (e := Employee.mk (next_id (map Employee.id (employee_db s)))
              (CreateEmployee.name d) (CreateEmployee.position d)
              (CreateEmployee.department d) EmployeeBalances.default).
  exists e. cbv zeta.
  change (create_employee d s)
    with (Return e, mkStore (employee_db s ++ [e])%list (leave_db s)).
  cbn [fst snd].
  assert (Hnew : find_first (has_employee_id (Employee.id e))
                   (employee_db s ++ [e])%list = Some e).
  { rewrite find_first_app, find_first_absent.
    - cbn. unfold has_employee_id. rewrite Z.eqb_refl. reflexivity.
    - intros x Hx. unfold has_employee_id. apply Z.eqb_neq. intro Heq.
      apply (next_id_not_in (map Employee.id (employee_db s))).
      change (next_id (map Employee.id (employee_db s))) with (Employee.id e).
      rewrite <- Heq. apply in_map. exact Hx. }
  repeat split.
  - unfold get_employee_by_id. apply find_employee_found. exact Hnew.
  - unfold get_employee_leave_balance, bind.
    rewrite (find_employee_found _ (mkStore (employee_db s ++ [e])%list (leave_db s))
               _ Hnew). reflexivity.
  - intros j Hj. rewrite !get_employee_by_id_eval.
    cbn [employee_db]. rewrite find_first_app.
    destruct (find_first (has_employee_id j) (employee_db s)); [reflexivity|].
    cbn. unfold has_employee_id.
    destruct (Employee.id e =? j) eqn:E; [apply Z.eqb_eq in E; congruence | reflexivity].
Qed.

Lemma create_employee_then_get_witness :
  exists e,
    fst (create_employee carol initial_store) = Return e
    /\ get_employee_by_id (Employee.id e) (snd (create_employee carol initial_store))
       = (Return e, snd (create_employee carol initial_store))
    /\ fst (get_employee_by_id 2 (snd (create_employee carol initial_store)))
       = fst (get_employee_by_id 2 initial_store).
Proof.
  destruct (create_employee_then_get carol initial_store)
    as (e & Hret & _ & _ & _ & Hget & _ & Hother & _).
  exists e. split; [exact Hret|]. split; [exact Hget|].
  apply Hother. intro H2.
  assert (He : Return e = fst (create_employee carol initial_store)) by (symmetry; exact Hret).
  cbn in He. injection He as ->. discriminate H2.
Defined.

(** What an id designates after the object of id [i] was mutated by an
    assignment that keeps ids. *)
Lemma find_after_mutate_employee (i j : Z) (f : Employee.t -> Employee.t)
  (l : list Employee.t) :
  (forall x, Employee.id (f x) = Employee.id x) ->
  find_first (has_employee_id j) (mutate_first (has_employee_id i) f l)
  = option_map (fun x => if j =? i then f x else x) (find_first (has_employee_id j) l).
Proof.
  intro Hf. unfold has_employee_id. induction l as [|x l IH]; [reflexivity|].
  cbn [mutate_first find_first].
  destruct (Employee.id x =? i) eqn:E1; destruct (Employee.id x =? j) eqn:E2;
    cbn [find_first]; rewrite ?Hf, ?E2; cbn [option_map].
  - apply Z.eqb_eq in E1, E2. replace (j =? i) with true by (symmetry; apply Z.eqb_eq; lia).
    reflexivity.
  - apply Z.eqb_eq in E1. apply Z.eqb_neq in E2.
    replace (j =? i) with false by (symmetry; apply Z.eqb_neq; lia).
    destruct (find_first (fun employee => Employee.id employee =? j) l); reflexivity.
  - apply Z.eqb_neq in E1. apply Z.eqb_eq in E2.
    replace (j =? i) with false by (symmetry; apply Z.eqb_neq; lia). reflexivity.
  - exact IH.
Qed.

(** X6. [update_employee] on an id that is present rewrites the employee
    that id designates, in place: name, position and department become
    the submitted ones, id and leave balances are kept, every other
    employee and every request is as before; the call returns the rewritten
    record, and [get_employee_leave_balance] answers for every id what it
    answered before. *)
Theorem update_employee_keeps_balances
  (employee_id : Z) (d : CreateEmployee.t) (s : Store) (e : Employee.t) :
  find_first (has_employee_id employee_id) (employee_db s) = Some e ->
  let s' := snd (update_employee employee_id d s) in
  let e' := Employee.mk (Employee.id e) (CreateEmployee.name d) (CreateEmployee.position d)
              (CreateEmployee.department d) (Employee.leave_balances e) in
  fst (update_employee employee_id d s) = Return e'
  /\ (exists l1 l2, employee_db s = (l1 ++ e :: l2)%list
                    /\ employee_db s' = (l1 ++ e' :: l2)%list)
  /\ leave_db s' = leave_db s
  /\ get_employee_by_id employee_id s' = (Return e', s')
  /\ forall j, fst (get_employee_leave_balance j s') = fst (get_employee_leave_balance j s).
Proof.
  intros He s' e'.
  assert (Hu : update_employee employee_id d s
               = (Return e',
                  mkStore (mutate_first (has_employee_id employee_id)
                             (Employee.set_profile d) (employee_db s)) (leave_db s))).
  { unfold update_employee, bind at 1. rewrite (find_employee_found _ _ _ He). reflexivity. }
  subst s'. rewrite Hu. cbn [fst snd employee_db leave_db].
  pose proof (fun j => find_after_mutate_employee employee_id j (Employee.set_profile d)
                        (employee_db s) (fun x => eq_refl)) as Hf.
  split; [reflexivity|]. split.
  - destruct (find_first_split _ _ _ He) as (l1 & l2 & Hl & _ & Hm).
    exists l1, l2. split; [exact Hl | apply Hm].
  - split; [reflexivity|]. split.
    + unfold get_employee_by_id. apply find_employee_found. cbn [employee_db].
      rewrite Hf, He, Z.eqb_refl. reflexivity.
    + intro j. rewrite !get_employee_leave_balance_eval. cbn [employee_db]. rewrite Hf.
      destruct (find_first (has_employee_id j) (employee_db s)) as [x|]; cbn; [|reflexivity].
      destruct (j =? employee_id); reflexivity.
Qed.

Lemma update_employee_keeps_balances_witness :
  fst (get_employee_leave_balance 2 (snd (update_employee 2 carol initial_store)))
  = fst (get_employee_leave_balance 2 initial_store).
Proof.
  destruct (update_employee_keeps_balances 2 carol initial_store
              (Employee.mk 2 "Bob Johnson" "HR Manager" "Human Resources"
                 (EmployeeBalances.mk (LeaveBalance.mk 20 5) (LeaveBalance.mk 10 1)
                    (LeaveBalance.mk 5 0))) eq_refl) as (_ & _ & _ & _ & H).
  exact (H 2).
Defined.

Lemma list_remove_first {A} (eqb : A -> A -> bool) (x : A) (l1 l2 : list A) :
  (forall y, In y l1 -> eqb y x = false) -> eqb x x = true ->
  list_remove eqb x (l1 ++ x :: l2) = Some (l1 ++ l2)%list.
Proof.
  intros Hl1 Hx. induction l1 as [|y l1 IH]; cbn.
  - rewrite Hx. reflexivity.
  - rewrite (Hl1 y (or_introl eq_refl)), IH; [reflexivity|].
    intros z Hz. apply Hl1. right. exact Hz.
Qed.

(** [delete_employee] takes out the very object [find_employee] found:
    the first of the list with the id. *)
Lemma delete_employee_first (i : Z) (s : Store) (e : Employee.t) :
  find_first (has_employee_id i) (employee_db s) = Some e ->
  exists l1 l2,
    employee_db s = (l1 ++ e :: l2)%list
    /\ (forall y, In y l1 -> has_employee_id i y = false)
    /\ delete_employee i s = (Return tt, mkStore (l1 ++ l2)%list (leave_db s)).
Proof.
  intro He. destruct (find_first_split _ _ _ He) as (l1 & l2 & Hl & Hl1 & _).
  exists l1, l2. split; [exact Hl|]. split; [exact Hl1|].
  unfold delete_employee, bind at 1. rewrite (find_employee_found _ _ _ He).
  assert (R : list_remove Employee.eqb e (employee_db s) = Some (l1 ++ l2)%list).
  { rewrite Hl. apply list_remove_first; [|apply Employee_eqb_refl].
    intros y Hy. destruct (Employee.eqb y e) eqn:E; [|reflexivity].
    apply Employee_eqb_eq in E. subst y.
    destruct (find_first_In _ _ _ He) as [_ Hid]. rewrite (Hl1 e Hy) in Hid.
    discriminate. }
  unfold bind, gets. rewrite R. reflexivity.
Qed.

Lemma get_employee_leave_requests_eval (i : Z) (s : Store) :
  fst (get_employee_leave_requests i s)
  = match find_first (has_employee_id i) (employee_db s) with
    | Some _ => Return (filter (fun req => LeaveRequest.employee_id req =? i) (leave_db s))
    | None => Raise (employee_not_found i)
    end.
Proof.
  unfold get_employee_leave_requests, bind at 1.
  destruct (find_employee_cases i s) as [(e & -> & ->)|[-> ->]]; reflexivity.
Qed.

(** X7. In a store whose employee ids are distinct, [delete_employee] on an
    id that is present returns, and afterwards that id designates nobody:
    [get_employee_by_id], [get_employee_leave_requests] and a second
    [delete_employee] on it all raise the 404.  Every other id designates
    what it did before, and the request list is as before (requests that name
    the deleted employee are kept). *)
Theorem delete_employee_then_gone (employee_id : Z) (s : Store) (e : Employee.t) :
  NoDup (map Employee.id (employee_db s)) ->
  find_first (has_employee_id employee_id) (employee_db s) = Some e ->
  let s' := snd (delete_employee employee_id s) in
  let not_found :=
    HTTPException 404 ("Employee with ID " ++ str employee_id ++ " not found") in
  fst (delete_employee employee_id s) = Return tt
  /\ get_employee_by_id employee_id s' = (Raise not_found, s')
  /\ fst (get_employee_leave_requests employee_id s') = Raise not_found
  /\ delete_employee employee_id s' = (Raise not_found, s')
  /\ (forall j, j <> employee_id ->
                fst (get_employee_by_id j s') = fst (get_employee_by_id j s))
  /\ leave_db s' = leave_db s.
Proof.
  intros Hnd He s' not_found.
  destruct (delete_employee_first _ _ _ He) as (l1 & l2 & Hl & Hl1 & Hdel).
  subst s'. rewrite Hdel. cbn [fst snd].
  destruct (find_first_In _ _ _ He) as [_ Hid]. apply has_employee_id_true in Hid.
  assert (Hgone : find_first (has_employee_id employee_id)
                    (employee_db (mkStore (l1 ++ l2)%list (leave_db s))) = None).
  { cbn [employee_db]. apply find_first_absent. intros y Hy.
    unfold has_employee_id. apply Z.eqb_neq. intro Heq.
    rewrite Hl, map_app in Hnd. cbn [map] in Hnd.
    apply (NoDup_remove_2 _ _ _ Hnd). rewrite Hid, <- Heq, <- map_app.
    apply in_map. exact Hy. }
  split; [reflexivity|]. split.
  - unfold get_employee_by_id. apply find_employee_missing. exact Hgone.
  - split; [rewrite get_employee_leave_requests_eval, Hgone; reflexivity|]. split.
    + unfold delete_employee, bind at 1. rewrite (find_employee_missing _ _ Hgone).
      reflexivity.
    + split; [|reflexivity]. intros j Hj. rewrite !get_employee_by_id_eval.
      cbn [employee_db]. rewrite Hl, !find_first_app. cbn [find_first].
      assert (Hje : has_employee_id j e = false)
        by (unfold has_employee_id; apply Z.eqb_neq; congruence).
      rewrite Hje. reflexivity.
Qed.

Lemma delete_employee_then_gone_witness :
  get_employee_by_id 2 (snd (delete_employee 2 initial_store))
  = (Raise (HTTPException 404 "Employee with ID 2 not found"),
     snd (delete_employee 2 initial_store)).
Proof.
  assert (Hnd : NoDup (map Employee.id (employee_db initial_store))).
  { cbn. repeat constructor; cbn; intuition discriminate. }
  destruct (delete_employee_then_gone 2 initial_store
              (Employee.mk 2 "Bob Johnson" "HR Manager" "Human Resources"
                 (EmployeeBalances.mk (LeaveBalance.mk 20 5) (LeaveBalance.mk 10 1)
                    (LeaveBalance.mk 5 0))) Hnd eq_refl) as (_ & H & _).
  exact H.
Defined.

(** ** Raising leaves the store alone *)

(** X8. Whatever the call and the store, a call that raises raises an
    [HTTPException] with status 404 or 400 (never the [ValueError] of
    [list.remove]), and the store after it is exactly the store before
    it: no endpoint assigns anything before its last check. *)
Theorem raise_changes_nothing (c : Call) (s : Store) (exn : Exception) :
  call_raises c s = Some exn ->
  exec c s = s /\ is_client_error exn = true.
Proof.
  destruct c as [| |i|d|i d|i|i|i d|st|i|request_id u]; unfold call_raises, exec.
  - discriminate.
  - discriminate.
  - unfold get_employee_by_id.
    destruct (find_employee_cases i s) as [(e & _ & ->)|[_ ->]]; cbn [fst snd raised].
    + discriminate.
    + intros [= <-]. split; reflexivity.
  - discriminate.
  - unfold update_employee. rewrite bind_find_employee.
    destruct (find_first (has_employee_id i) (employee_db s)); cbn [fst snd raised].
    + discriminate.
    + intros [= <-]. split; reflexivity.
  - destruct (find_first (has_employee_id i) (employee_db s)) as [e|] eqn:E.
    + destruct (delete_employee_first _ _ _ E) as (l1 & l2 & _ & _ & ->). discriminate.
    + unfold delete_employee. rewrite bind_find_employee, E.
      cbn [fst snd raised]. intros [= <-]. split; reflexivity.
  - unfold get_employee_leave_balance. rewrite bind_find_employee.
    destruct (find_first (has_employee_id i) (employee_db s)); cbn [fst snd raised].
    + discriminate.
    + intros [= <-]. split; reflexivity.
  - destruct (find_first (has_employee_id i) (employee_db s)) as [e|] eqn:E.
    + rewrite (create_leave_found _ _ _ _ E). cbv zeta.
      destruct (_ <=? 0); [cbn [fst snd raised]; intros [= <-]; split; reflexivity|].
      destruct (_ <? _); cbn [fst snd raised];
        [intros [= <-]; split; reflexivity | discriminate].
    + rewrite (create_leave_missing _ _ _ E). cbn [fst snd raised].
      intros [= <-]. split; reflexivity.
  - destruct st; discriminate.
  - unfold get_employee_leave_requests. rewrite bind_find_employee.
    destruct (find_first (has_employee_id i) (employee_db s)); cbn [fst snd raised].
    + discriminate.
    + intros [= <-]. split; reflexivity.
  - destruct (find_first (has_request_id request_id) (leave_db s)) as [req|] eqn:Hr.
    + destruct (find_first (has_employee_id (LeaveRequest.employee_id req)) (employee_db s))
        as [e|] eqn:He.
      * rewrite (update_status_found _ _ _ _ _ Hr He). cbv zeta.
        destruct (_ && _).
        -- destruct (_ <? _); cbn [fst snd raised];
             [intros [= <-]; split; reflexivity | discriminate].
        -- destruct (_ && _); discriminate.
      * rewrite (update_status_no_employee _ _ _ _ Hr He). cbn [fst snd raised].
        intros [= <-]. split; reflexivity.
    + rewrite (update_status_no_request _ _ _ Hr). cbn [fst snd raised].
      intros [= <-]. split; reflexivity.
Qed.

Lemma raise_changes_nothing_witness :
  exec (Call_update_leave_request_status 3 (set_to APPROVED)) store_with_exhausted_balance
  = store_with_exhausted_balance.
Proof.
  apply (raise_changes_nothing
           (Call_update_leave_request_status 3 (set_to APPROVED))
           store_with_exhausted_balance
           (HTTPException 400 "Cannot approve. Employee has insufficient personal balance.")).
  reflexivity.
Defined.

(** ** More on status updates *)

Lemma mutate_first_fixed {A} (p : A -> bool) (f : A -> A) (l : list A) (x : A) :
  find_first p l = Some x -> f x = x -> mutate_first p f l = l.
Proof.
  intros Hx Hf. destruct (find_first_split _ _ _ Hx) as (l1 & l2 & -> & _ & Hm).
  rewrite Hm, Hf. reflexivity.
Qed.

Lemma set_status_same (req : LeaveRequest.t) :
  LeaveRequest.set_status (LeaveRequest.status req) req = req.
Proof. destruct req. reflexivity. Qed.

(** X9. When [update_leave_request_status] returns, what it returns is the
    designated request with the new status and every other field as it
    was; in the request list that one object is rewritten in place, and
    all other requests, as well as their order, are as before. *)
Theorem update_status_commits_status
  (request_id : Z) (u : UpdateLeaveStatus.t) (s : Store) (req r : LeaveRequest.t) :
  find_first (has_request_id request_id) (leave_db s) = Some req ->
  fst (update_leave_request_status request_id u s) = Return r ->
  LeaveRequest.status r = UpdateLeaveStatus.status u
  /\ LeaveRequest.id r = LeaveRequest.id req
  /\ LeaveRequest.employee_id r = LeaveRequest.employee_id req
  /\ LeaveRequest.leave_type r = LeaveRequest.leave_type req
  /\ LeaveRequest.start_date r = LeaveRequest.start_date req
  /\ LeaveRequest.end_date r = LeaveRequest.end_date req
  /\ LeaveRequest.reason r = LeaveRequest.reason req
  /\ exists l1 l2,
      leave_db s = (l1 ++ req :: l2)%list
      /\ leave_db (snd (update_leave_request_status request_id u s)) = (l1 ++ r :: l2)%list.
Proof.
  intros Hr Hret.
  destruct (find_first (has_employee_id (LeaveRequest.employee_id req)) (employee_db s))
    as [e|] eqn:He;
    [|rewrite (update_status_no_employee _ _ _ _ Hr He) in Hret; discriminate Hret].
  destruct (find_first_split _ _ _ Hr) as (l1 & l2 & Hl & _ & Hm).
  rewrite (update_status_found _ _ _ _ _ Hr He) in Hret |- *. cbv zeta in Hret |- *.
  assert (Hgoal : forall db,
             Return (LeaveRequest.set_status (UpdateLeaveStatus.status u) req) = Return r ->
             LeaveRequest.status r = UpdateLeaveStatus.status u
             /\ LeaveRequest.id r = LeaveRequest.id req
             /\ LeaveRequest.employee_id r = LeaveRequest.employee_id req
             /\ LeaveRequest.leave_type r = LeaveRequest.leave_type req
             /\ LeaveRequest.start_date r = LeaveRequest.start_date req
             /\ LeaveRequest.end_date r = LeaveRequest.end_date req
             /\ LeaveRequest.reason r = LeaveRequest.reason req
             /\ exists l1' l2',
                 leave_db s = (l1' ++ req :: l2')%list
                 /\ leave_db
                      (mkStore db
                         (mutate_first (has_request_id request_id)
                            (LeaveRequest.set_status (UpdateLeaveStatus.status u))
                            (leave_db s)))
                    = (l1' ++ r :: l2')%list).
  { intros db [= <-]. repeat split. exists l1, l2. split; [exact Hl | apply Hm]. }
  destruct (_ && _).
  - destruct (_ <? _); [discriminate Hret|]. cbn [fst snd] in Hret |- *. eauto.
  - destruct (_ && _); cbn [fst snd] in Hret |- *; eauto.
Qed.

Lemma update_status_commits_status_witness :
  LeaveRequest.status
    (LeaveRequest.mk 1 2 VACATION (date_of_ymd 2025 10 20) (date_of_ymd 2025 10 22)
       "Family vacation." PENDING)
  = UpdateLeaveStatus.status (set_to PENDING).
Proof.
  apply (update_status_commits_status 1 (set_to PENDING) initial_store
           (LeaveRequest.mk 1 2 VACATION (date_of_ymd 2025 10 20)
              (date_of_ymd 2025 10 22) "Family vacation." APPROVED)
           (LeaveRequest.mk 1 2 VACATION (date_of_ymd 2025 10 20)
              (date_of_ymd 2025 10 22) "Family vacation." PENDING));
    reflexivity.
Defined.

(** X10. A status change that neither starts from nor arrives at approved
    (pending to rejected, rejected to pending) makes no balance check and
    touches no employee: with the request's employee present it always
    returns, even when the balance would not cover the request, and the
    employee list is as before. *)
Theorem status_change_outside_approved
  (request_id : Z) (new_status : LeaveStatus) (s : Store)
  (req : LeaveRequest.t) (e : Employee.t) :
  find_first (has_request_id request_id) (leave_db s) = Some req ->
  find_first (has_employee_id (LeaveRequest.employee_id req)) (employee_db s) = Some e ->
  LeaveRequest.status req <> APPROVED ->
  new_status <> APPROVED ->
  fst (update_leave_request_status request_id (UpdateLeaveStatus.mk new_status) s)
  = Return (LeaveRequest.set_status new_status req)
  /\ employee_db (snd (update_leave_request_status request_id
                         (UpdateLeaveStatus.mk new_status) s))
     = employee_db s.
Proof.
  intros Hr He Hold Hnew. rewrite (update_status_found _ _ _ _ _ Hr He). cbv zeta.
  apply LeaveStatus_eqb_neq in Hold, Hnew. cbn [UpdateLeaveStatus.status].
  rewrite Hold, Hnew. cbn [andb fst snd employee_db]. split; reflexivity.
Qed.

Lemma status_change_outside_approved_witness :
  employee_db (snd (update_leave_request_status 3 (UpdateLeaveStatus.mk REJECTED)
                      store_with_exhausted_balance))
  = employee_db store_with_exhausted_balance.
Proof.
  apply (status_change_outside_approved 3 REJECTED store_with_exhausted_balance
           (LeaveRequest.mk 3 1 PERSONAL (date_of_ymd 2025 10 20)
              (date_of_ymd 2025 10 24) "Moving house." PENDING)
           (Employee.mk 1 "Alice Smith" "Software Engineer" "Technology"
              (EmployeeBalances.mk (LeaveBalance.mk 15 0) (LeaveBalance.mk 10 0)
                                   (LeaveBalance.mk 5 5))));
    [reflexivity | reflexivity | discriminate | discriminate].
Defined.

(** X11. Setting a request to the status it already has is a no-op on the
    whole store, whatever that status: with the request's employee
    present the call returns the request as it is, and neither the
    employee list nor the request list changes (an approved request is
    re-approved without a new balance check). *)
Theorem update_to_same_status_is_noop
  (request_id : Z) (s : Store) (req : LeaveRequest.t) (e : Employee.t) :
  find_first (has_request_id request_id) (leave_db s) = Some req ->
  find_first (has_employee_id (LeaveRequest.employee_id req)) (employee_db s) = Some e ->
  update_leave_request_status request_id (UpdateLeaveStatus.mk (LeaveRequest.status req)) s
  = (Return req, s).
Proof.
  intros Hr He. rewrite (update_status_found _ _ _ _ _ Hr He). cbv zeta.
  cbn [UpdateLeaveStatus.status].
  rewrite (mutate_first_fixed _ _ _ _ Hr (set_status_same req)), set_status_same.
  destruct s as [edb ldb]. cbn [employee_db leave_db].
  destruct (LeaveStatus_eqb (LeaveRequest.status req) APPROVED); reflexivity.
Qed.

Lemma update_to_same_status_is_noop_witness :
  update_leave_request_status 1 (UpdateLeaveStatus.mk APPROVED) initial_store
  = (Return (LeaveRequest.mk 1 2 VACATION (date_of_ymd 2025 10 20)
               (date_of_ymd 2025 10 22) "Family vacation." APPROVED),
     initial_store).
Proof.
  apply (update_to_same_status_is_noop 1 initial_store
           (LeaveRequest.mk 1 2 VACATION (date_of_ymd 2025 10 20)
              (date_of_ymd 2025 10 22) "Family vacation." APPROVED)
           (Employee.mk 2 "Bob Johnson" "HR Manager" "Human Resources"
              (EmployeeBalances.mk (LeaveBalance.mk 20 5) (LeaveBalance.mk 10 1)
                 (LeaveBalance.mk 5 0))));
    reflexivity.
Defined.

(** ** The ledger follows the approved requests *)

Lemma option_map_same {A} (o : option A) : option_map (fun x => x) o = o.
Proof. destruct o; reflexivity. Qed.

Lemma exec_surplus (c : Call) (s : Store) (i : Z) (leave_type : LeaveType) :
  changes_registry c = false ->
  surplus (exec c s) i leave_type = surplus s i leave_type.
Proof.
  intro Hc. pose proof (exec_effect c s) as E.
  destruct E as [c s|d s|j d s|j s e l1 l2 Hid Hl|j d s e He
                |rid s req e Hr He Hst Hrem|rid new_status s req e Hr He Hst Hnew
                |rid new_status s req Hr Hiff];
    try discriminate Hc; try reflexivity; unfold surplus; cbn [employee_db leave_db].
  - (* update_employee *)
    rewrite find_after_mutate_employee by reflexivity.
    destruct (find_first (has_employee_id i) (employee_db s)) as [x|]; [|reflexivity].
    cbn [option_map]. destruct (i =? j); reflexivity.
  - (* create_leave_request *)
    rewrite approved_days_app. unfold approved_days at 2. cbn [map]. rewrite sum_cons.
    rewrite charge_not_approved by (cbn; discriminate). cbn [map sum fold_right].
    destruct (find_first (has_employee_id i) (employee_db s)); [|reflexivity].
    f_equal. lia.
  - (* a request becomes approved *)
    rewrite find_after_mutate_employee by reflexivity.
    rewrite (approved_days_mutate _ _ _ _ _ _ Hr).
    rewrite (charge_not_approved _ _ req) by exact Hst.
    destruct (i =? LeaveRequest.employee_id req) eqn:Ei.
    + apply Z.eqb_eq in Ei. subst i. rewrite He. cbn [option_map]. f_equal.
      destruct (LeaveType_eq_or_neq leave_type (LeaveRequest.leave_type req)) as [->|Hne].
      * rewrite balance_add_used_same. cbn [LeaveBalance.used].
        pose proof (charge_approved (LeaveRequest.set_status APPROVED req) eq_refl) as Hch.
        cbn [LeaveRequest.set_status LeaveRequest.employee_id LeaveRequest.leave_type] in Hch.
        rewrite Hch, duration_set_status. lia.
      * rewrite balance_add_used_other by exact Hne.
        rewrite (charge_other_type _ _ (LeaveRequest.set_status APPROVED req))
          by exact Hne. lia.
    + apply Z.eqb_neq in Ei. rewrite option_map_same.
      rewrite (charge_other_employee _ _ (LeaveRequest.set_status APPROVED req))
        by (cbn; congruence).
      destruct (find_first (has_employee_id i) (employee_db s)); [|reflexivity].
      f_equal. lia.
  - (* an approved request stops being approved *)
    rewrite find_after_mutate_employee by reflexivity.
    rewrite (approved_days_mutate _ _ _ _ _ _ Hr).
    rewrite (charge_not_approved _ _ (LeaveRequest.set_status new_status req))
      by exact Hnew.
    destruct (i =? LeaveRequest.employee_id req) eqn:Ei.
    + apply Z.eqb_eq in Ei. subst i. rewrite He. cbn [option_map]. f_equal.
      destruct (LeaveType_eq_or_neq leave_type (LeaveRequest.leave_type req)) as [->|Hne].
      * rewrite balance_add_used_same. cbn [LeaveBalance.used].
        rewrite (charge_approved req Hst). lia.
      * rewrite balance_add_used_other by exact Hne.
        rewrite (charge_other_type _ _ req) by exact Hne. lia.
    + apply Z.eqb_neq in Ei. rewrite option_map_same.
      rewrite (charge_other_employee _ _ req) by congruence.
      destruct (find_first (has_employee_id i) (employee_db s)); [|reflexivity].
      f_equal. lia.
  - (* a status change that neither enters nor leaves approved *)
    rewrite (approved_days_mutate _ _ _ _ _ _ Hr), (charge_set_status _ _ _ _ Hiff).
    destruct (find_first (has_employee_id i) (employee_db s)); [|reflexivity].
    f_equal. lia.
Qed.

(** X12. Over any sequence of calls that neither creates nor deletes an
    employee, and for every employee id and leave type, the difference
    between [used] and the total duration of the approved requests charged
    to that balance stays what it was: approvals and their reversals move
    [used] by exactly the days of the requests that are approved. *)
Theorem ledger_tracks_approved_requests
  (calls : list Call) (s : Store) (employee_id : Z) (leave_type : LeaveType) :
  forallb (fun c => negb (changes_registry c)) calls = true ->
  surplus (run calls s) employee_id leave_type = surplus s employee_id leave_type.
Proof.
  revert s. induction calls as [|c calls IH]; intros s Hok; [reflexivity|].
  cbn [forallb] in Hok. apply andb_prop in Hok. destruct Hok as [Hc Hrest].
  apply negb_true_iff in Hc. cbn [run fold_left].
  change (fold_left (fun s0 c0 => exec c0 s0) calls (exec c s)) with (run calls (exec c s)).
  rewrite (IH _ Hrest). apply exec_surplus. exact Hc.
Qed.

Lemma ledger_tracks_approved_requests_witness :
  surplus (run [Call_create_leave_request 2 personal_week;
                Call_update_leave_request_status 2 (set_to APPROVED);
                Call_update_leave_request_status 1 (set_to REJECTED)] initial_store)
          2 VACATION
  = surplus initial_store 2 VACATION.
Proof.
  apply (ledger_tracks_approved_requests
           [Call_create_leave_request 2 personal_week;
            Call_update_leave_request_status 2 (set_to APPROVED);
            Call_update_leave_request_status 1 (set_to REJECTED)]
           initial_store 2 VACATION).
  reflexivity.
Defined.

(** X13. One request's status update never reaches another employee: for
    every id other than the one the designated request names,
    [get_employee_by_id] and [get_employee_leave_balance] answer after the
    call what they answered before it. *)
Theorem update_status_spares_other_employees
  (request_id : Z) (u : UpdateLeaveStatus.t) (s : Store) (req : LeaveRequest.t) (j : Z) :
  find_first (has_request_id request_id) (leave_db s) = Some req ->
  j <> LeaveRequest.employee_id req ->
  let s' := snd (update_leave_request_status request_id u s) in
  fst (get_employee_by_id j s') = fst (get_employee_by_id j s)
  /\ fst (get_employee_leave_balance j s') = fst (get_employee_leave_balance j s).
Proof.
  intros Hr Hj s'.
  assert (Hfind : find_first (has_employee_id j) (employee_db s')
                  = find_first (has_employee_id j) (employee_db s)).
  { subst s'.
    destruct (find_first (has_employee_id (LeaveRequest.employee_id req)) (employee_db s))
      as [e|] eqn:He;
      [|rewrite (update_status_no_employee _ _ _ _ Hr He); reflexivity].
    destruct (find_first_In _ _ _ He) as [_ Hid]. apply has_employee_id_true in Hid.
    assert (Hm : forall n,
               find_first (has_employee_id j)
                 (mutate_first (has_employee_id (Employee.id e))
                    (Employee.add_used (LeaveRequest.leave_type req) n) (employee_db s))
               = find_first (has_employee_id j) (employee_db s)).
    { intro n. rewrite find_after_mutate_employee by reflexivity.
      replace (j =? Employee.id e) with false by (symmetry; apply Z.eqb_neq; congruence).
      apply option_map_same. }
    rewrite (update_status_found _ _ _ _ _ Hr He). cbv zeta.
    destruct (_ && _).
    - destruct (_ <? _); cbn [snd employee_db]; [reflexivity | apply Hm].
    - destruct (_ && _); cbn [snd employee_db]; [apply Hm | reflexivity]. }
  rewrite !get_employee_by_id_eval, !get_employee_leave_balance_eval, Hfind.
  split; reflexivity.
Qed.

Lemma update_status_spares_other_employees_witness :
  fst (get_employee_leave_balance 1
         (snd (update_leave_request_status 1 (set_to REJECTED) initial_store)))
  = fst (get_employee_leave_balance 1 initial_store).
Proof.
  apply (update_status_spares_other_employees 1 (set_to REJECTED) initial_store
           (LeaveRequest.mk 1 2 VACATION (date_of_ymd 2025 10 20)
              (date_of_ymd 2025 10 22) "Family vacation." APPROVED) 1);
    [reflexivity | discriminate].
Defined.

(** ** Filing requests *)

(** What a returning [create_leave_request] has done. *)
Lemma create_leave_returns (i : Z) (d : CreateLeaveRequest.t) (s : Store)
  (r : LeaveRequest.t) :
  fst (create_leave_request i d s) = Return r ->
  r = LeaveRequest.mk (next_id (request_ids s)) i (CreateLeaveRequest.leave_type d)
        (CreateLeaveRequest.start_date d) (CreateLeaveRequest.end_date d)
        (CreateLeaveRequest.reason d) PENDING
  /\ snd (create_leave_request i d s) = mkStore (employee_db s) (leave_db s ++ [r])%list
  /\ exists e,
      find_first (has_employee_id i) (employee_db s) = Some e
      /\ (calculate_business_days (CreateLeaveRequest.start_date d)
                                  (CreateLeaveRequest.end_date d) <=? 0) = false
      /\ (LeaveBalance.remaining (balance e (CreateLeaveRequest.leave_type d))
          <? calculate_business_days (CreateLeaveRequest.start_date d)
                                     (CreateLeaveRequest.end_date d)) = false.
Proof.
  destruct (find_first (has_employee_id i) (employee_db s)) as [e|] eqn:E;
    [|rewrite (create_leave_missing _ _ _ E); discriminate].
  rewrite (create_leave_found _ _ _ _ E). cbv zeta.
  destruct (_ <=? 0) eqn:Ed; [discriminate|].
  destruct (_ <? _) eqn:Er; [discriminate|].
  cbn [fst snd]. intros [= <-]. split; [reflexivity|]. split; [reflexivity|].
  exists e. auto.
Qed.

Lemma next_id_after_append (ids : list Z) :
  next_id (ids ++ [next_id ids]) = next_id ids + 1.
Proof.
  apply next_id_of_max. split.
  - apply in_or_app. right. left. reflexivity.
  - apply Forall_app. split.
    + eapply Forall_impl; [|apply next_id_fresh]. cbn. intros; lia.
    + constructor; [lia | constructor].
Qed.

Lemma assigned_request_ids_increasing (calls : list Call) (s : Store) :
  increasing (assigned_request_ids calls s)
  /\ Forall (fun i => Forall (fun j => j < i) (request_ids s)) (assigned_request_ids calls s).
Proof.
  revert s. induction calls as [|c calls IH]; intro s; [cbn; auto|].
  destruct (IH (exec c s)) as [Hinc Habove].
  assert (Hgrow : forall j, In j (request_ids s) -> In j (request_ids (exec c s))).
  { intros j Hj. destruct (Effect_request_ids _ _ _ (exec_effect c s)) as [->| ->];
      [exact Hj | apply in_or_app; left; exact Hj]. }
  assert (Hlater : Forall (fun i => Forall (fun j => j < i) (request_ids s))
                          (assigned_request_ids calls (exec c s))).
  { eapply Forall_impl; [|exact Habove]. cbn. intros i Hi.
    rewrite Forall_forall in *. intros j Hj. apply Hi. apply Hgrow. exact Hj. }
  cbn [assigned_request_ids].
  destruct c; cbn [app]; try (split; assumption).
  destruct (fst (create_leave_request employee_id request_data s)) as [r|x] eqn:Er;
    cbn [app]; [|split; assumption].
  destruct (create_leave_returns _ _ _ _ Er) as (Hr & Hs & _).
  split.
  - cbn [increasing]. split; [|exact Hinc].
    eapply Forall_impl; [|exact Habove]. cbn. intros i Hi.
    rewrite Forall_forall in Hi. apply Hi.
    unfold request_ids. cbn [exec]. rewrite Hs. cbn [leave_db].
    rewrite map_app. apply in_or_app. right. left. reflexivity.
  - constructor; [|exact Hlater]. rewrite Hr. cbn [LeaveRequest.id]. apply next_id_fresh.
Qed.

(** X14. Over every sequence of API calls, from every store, the ids that
    [create_leave_request] assigns are strictly increasing, none is
    assigned twice, and each exceeds every request id the store held at
    the start (no call removes a request, so nothing can free an id). *)
Theorem request_ids_always_increase (calls : list Call) (s : Store) :
  increasing (assigned_request_ids calls s)
  /\ NoDup (assigned_request_ids calls s)
  /\ Forall (fun i => Forall (fun j => j < i) (map LeaveRequest.id (leave_db s)))
            (assigned_request_ids calls s).
Proof.
  destruct (assigned_request_ids_increasing calls s) as [Hinc Habove].
  split; [exact Hinc|]. split; [|exact Habove].
  clear Habove. induction (assigned_request_ids calls s) as [|x l IHl]; [constructor|].
  destruct Hinc as [Hx Hl]. constructor; [|apply IHl; exact Hl].
  intro Hin. rewrite Forall_forall in Hx. specialize (Hx _ Hin). lia.
Qed.

(** X15. Filing a request reserves nothing: when [create_leave_request]
    returns, the same call made again on the resulting store returns as
    well, with the next id, so any number of pending requests can be filed
    against one balance, whatever their total. *)
Theorem pending_requests_reserve_nothing
  (employee_id : Z) (d : CreateLeaveRequest.t) (s : Store) (r : LeaveRequest.t) :
  fst (create_leave_request employee_id d s) = Return r ->
  let s' := snd (create_leave_request employee_id d s) in
  fst (create_leave_request employee_id d s')
  = Return (LeaveRequest.mk (LeaveRequest.id r + 1) employee_id
              (CreateLeaveRequest.leave_type d) (CreateLeaveRequest.start_date d)
              (CreateLeaveRequest.end_date d) (CreateLeaveRequest.reason d) PENDING)
  /\ employee_db (snd (create_leave_request employee_id d s')) = employee_db s.
Proof.
  intros Hret s'. destruct (create_leave_returns _ _ _ _ Hret) as (Hr & Hs & e & He & Hd & Hb).
  subst s'. rewrite Hs.
  assert (He' : find_first (has_employee_id employee_id)
                  (employee_db (mkStore (employee_db s) (leave_db s ++ [r])%list)) = Some e)
    by exact He.
  rewrite (create_leave_found _ _ _ _ He'). cbv zeta. rewrite Hd, Hb.
  cbn [fst snd employee_db leave_db]. split; [|reflexivity].
  rewrite map_app. cbn [map]. rewrite Hr at 1. cbn [LeaveRequest.id].
  fold (request_ids s). rewrite next_id_after_append. rewrite Hr. reflexivity.
Qed.

Lemma pending_requests_reserve_nothing_witness :
  fst (create_leave_request 1 personal_week
         (snd (create_leave_request 1 personal_week initial_store)))
  = Return (LeaveRequest.mk 3 1 PERSONAL (date_of_ymd 2025 10 20) (date_of_ymd 2025 10 24)
              "Moving house." PENDING).
Proof.
  apply (pending_requests_reserve_nothing 1 personal_week initial_store
           (LeaveRequest.mk 2 1 PERSONAL (date_of_ymd 2025 10 20) (date_of_ymd 2025 10 24)
              "Moving house." PENDING)).
  reflexivity.
Defined.

(** X16. A request that [create_leave_request] has filed is listed last:
    [get_employee_leave_requests] for its employee returns the requests it
    returned before followed by the new one, the listing of the pending
    requests grows by it in the same way, and for every other employee id
    [get_employee_leave_requests] answers as before. *)
Theorem created_request_is_listed
  (employee_id : Z) (d : CreateLeaveRequest.t) (s : Store) (r : LeaveRequest.t) :
  fst (create_leave_request employee_id d s) = Return r ->
  let s' := snd (create_leave_request employee_id d s) in
  (exists before,
      fst (get_employee_leave_requests employee_id s) = Return before
      /\ fst (get_employee_leave_requests employee_id s') = Return (before ++ [r])%list)
  /\ (exists pending,
         fst (get_all_leave_requests (Some PENDING) s) = Return pending
         /\ fst (get_all_leave_requests (Some PENDING) s') = Return (pending ++ [r])%list)
  /\ forall j, j <> employee_id ->
               fst (get_employee_leave_requests j s') = fst (get_employee_leave_requests j s).
Proof.
  intros Hret s'. destruct (create_leave_returns _ _ _ _ Hret) as (Hr & Hs & e & He & _).
  subst s'. rewrite Hs.
  assert (Hid : LeaveRequest.employee_id r = employee_id) by (rewrite Hr; reflexivity).
  assert (Hst : LeaveRequest.status r = PENDING) by (rewrite Hr; reflexivity).
  split; [|split].
  - eexists. rewrite !get_employee_leave_requests_eval. cbn [employee_db leave_db].
    rewrite He. split; [reflexivity|].
    rewrite filter_app. cbn [filter]. rewrite Hid, Z.eqb_refl. reflexivity.
  - eexists. unfold get_all_leave_requests, bind, gets, ret. cbn [fst leave_db].
    split; [reflexivity|].
    rewrite filter_app. cbn [filter]. rewrite Hst. reflexivity.
  - intros j Hj. rewrite !get_employee_leave_requests_eval. cbn [employee_db leave_db].
    destruct (find_first (has_employee_id j) (employee_db s)); [|reflexivity].
    rewrite filter_app. cbn [filter]. rewrite Hid.
    replace (employee_id =? j) with false by (symmetry; apply Z.eqb_neq; congruence).
    rewrite app_nil_r. reflexivity.
Qed.

Lemma created_request_is_listed_witness :
  exists before,
    fst (get_employee_leave_requests 2 initial_store) = Return before
    /\ fst (get_employee_leave_requests 2
              (snd (create_leave_request 2 personal_week initial_store)))
       = Return (before ++ [LeaveRequest.mk 2 2 PERSONAL (date_of_ymd 2025 10 20)
                              (date_of_ymd 2025 10 24) "Moving house." PENDING])%list.
Proof.
  apply (created_request_is_listed 2 personal_week initial_store
           (LeaveRequest.mk 2 2 PERSONAL (date_of_ymd 2025 10 20) (date_of_ymd 2025 10 24)
              "Moving house." PENDING)).
  reflexivity.
Defined.

(** X17. The status filter of [get_all_leave_requests] sorts every request
    under exactly one status: the three filtered listings hold requests of
    the status asked for only, every request of the unfiltered listing is
    in the listing of its own status, and the three lengths add up to the
    length of the unfiltered listing, which is the whole request list.  No
    listing changes the store. *)
Theorem status_listings_partition (s : Store) :
  exists pending approved rejected,
    get_all_leave_requests (Some PENDING) s = (Return pending, s)
    /\ get_all_leave_requests (Some APPROVED) s = (Return approved, s)
    /\ get_all_leave_requests (Some REJECTED) s = (Return rejected, s)
    /\ get_all_leave_requests None s = (Return (leave_db s), s)
    /\ Forall (fun req => LeaveRequest.status req = PENDING) pending
    /\ Forall (fun req => LeaveRequest.status req = APPROVED) approved
    /\ Forall (fun req => LeaveRequest.status req = REJECTED) rejected
    /\ (forall req, In req (leave_db s) ->
                    In req match LeaveRequest.status req with
                           | PENDING => pending
                           | APPROVED => approved
                           | REJECTED => rejected
                           end)
    /\ (List.length pending + List.length approved + List.length rejected)%nat
       = List.length (leave_db s).
Proof.
  assert (Hall : forall st,
             Forall (fun req => LeaveRequest.status req = st)
               (filter (fun req => LeaveStatus_eqb (LeaveRequest.status req) st)
                  (leave_db s))).
  { intro st. apply Forall_forall. intros req Hin. apply filter_In in Hin.
    destruct Hin as [_ H]. apply LeaveStatus_eqb_eq. exact H. }
  do 3 eexists. split; [reflexivity|]. split; [reflexivity|]. split; [reflexivity|].
  split; [reflexivity|]. split; [apply Hall|]. split; [apply Hall|]. split; [apply Hall|].
  split.
  - intros req Hin. destruct (LeaveRequest.status req) eqn:E; apply filter_In;
      (split; [exact Hin | rewrite E; reflexivity]).
  - clear Hall. induction (leave_db s) as [|r l IH]; [reflexivity|].
    cbn [filter]. destruct (LeaveRequest.status r); simpl; lia.
Qed.

(** X18. A request that spans weekend days only is turned down as an
    invalid range although its dates are in order: for an existing
    employee, a request for a single Saturday or Sunday, or for a Saturday
    and the Sunday after it, raises the 400 "End date must be after start
    date." and leaves the store as it is. *)
Theorem weekend_only_request_is_invalid_range
  (employee_id : Z) (d : CreateLeaveRequest.t) (s : Store) (e : Employee.t) :
  find_first (has_employee_id employee_id) (employee_db s) = Some e ->
  (CreateLeaveRequest.end_date d = CreateLeaveRequest.start_date d
   /\ 5 <= weekday (CreateLeaveRequest.start_date d))
  \/ (CreateLeaveRequest.end_date d = CreateLeaveRequest.start_date d + 1
      /\ weekday (CreateLeaveRequest.start_date d) = 5) ->
  create_leave_request employee_id d s
  = (Raise (HTTPException 400 "End date must be after start date."), s).
Proof.
  intros He Hdates. rewrite (create_leave_found _ _ _ _ He). cbv zeta.
  assert (Hzero : calculate_business_days (CreateLeaveRequest.start_date d)
                                          (CreateLeaveRequest.end_date d) = 0).
  { destruct Hdates as [[-> Hw]|[-> Hw]].
    - pose proof (business_days_as_count (CreateLeaveRequest.start_date d) 1) as H.
      replace (CreateLeaveRequest.start_date d + Z.of_nat 1 - 1)
        with (CreateLeaveRequest.start_date d) in H by lia.
      rewrite H. cbn [dates_from filter]. rewrite is_monday_to_friday_weekday.
      replace (weekday (CreateLeaveRequest.start_date d) >=? 5) with true
        by (symmetry; apply Z.geb_le; exact Hw).
      reflexivity.
    - pose proof (business_days_as_count (CreateLeaveRequest.start_date d) 2) as H.
      replace (CreateLeaveRequest.start_date d + Z.of_nat 2 - 1)
        with (CreateLeaveRequest.start_date d + 1) in H by lia.
      rewrite H. cbn [dates_from filter].
      rewrite !is_monday_to_friday_weekday, weekday_next, Hw. reflexivity. }
  rewrite Hzero. reflexivity.
Qed.

Lemma weekend_only_request_is_invalid_range_witness :
  create_leave_request 1
    (CreateLeaveRequest.mk VACATION (date_of_ymd 2025 10 18) (date_of_ymd 2025 10 19)
       "Weekend trip.") initial_store
  = (Raise (HTTPException 400 "End date must be after start date."), initial_store).
Proof.
  apply (weekend_only_request_is_invalid_range 1
           (CreateLeaveRequest.mk VACATION (date_of_ymd 2025 10 18) (date_of_ymd 2025 10 19)
              "Weekend trip.") initial_store
           (Employee.mk 1 "Alice Smith" "Software Engineer" "Technology"
              EmployeeBalances.default) eq_refl).
  right. split; reflexivity.
Defined.

Lemma status_listings_partition_witness :
  exists pending approved rejected,
    get_all_leave_requests (Some PENDING) store_with_exhausted_balance
    = (Return pending, store_with_exhausted_balance)
    /\ get_all_leave_requests (Some APPROVED) store_with_exhausted_balance
       = (Return approved, store_with_exhausted_balance)
    /\ get_all_leave_requests (Some REJECTED) store_with_exhausted_balance
       = (Return rejected, store_with_exhausted_balance)
    /\ (List.length pending + List.length approved + List.length rejected)%nat
       = List.length (leave_db store_with_exhausted_balance).
Proof.
  destruct (status_listings_partition store_with_exhausted_balance)
    as (p & a & r & Hp & Ha & Hr & _ & _ & _ & _ & _ & Hlen).
  exists p, a, r. auto.
Defined.
